(** * GopherTalk, FastAPI flavour: the authentication service and the post
    controller.

    Shallow embedding of [services/auth_service.py] and
    [controllers/post_controller.py].  Python code that threads the
    database, the clock and the salt generator through its calls is written
    in a state-and-exception monad; the two third-party libraries the
    service calls ([bcrypt], [jose.jwt]) are interfaces (type classes), so
    that every statement about them names the law it relies on. *)

From Stdlib Require Import ZArith String Ascii List Bool DecimalString Decimal Lia.
From stdpp Require Import gmap strings list fin_maps.
From Stdlib Require DecimalPos.

Local Open Scope string_scope.
Local Open Scope Z_scope.

(** ** Python values, exceptions and the effect monad *)

Module Py.

(** [str] is text, [bytes] what [str.encode()] yields (UTF-8). *)
Abbreviation str := string.
Abbreviation bytes := (list Byte.byte).

Definition encode (s : str) : bytes := list_byte_of_string s.
Definition decode (b : bytes) : str := string_of_list_byte b.

(** The exceptions that occur in the embedded code.  [UniqueViolation] is
    [psycopg.errors.UniqueViolation]; [PostNotFound] is the failure of the
    post service. *)
Inductive exn : Type :=
| KeyError (key : str)
| ValueError (msg : str)
| UniqueViolation (constraint : str)
| PostNotFound (msg : str).

(** Two lower-case hexadecimal digits. *)
Definition hex_digit (n : nat) : ascii :=
  ascii_of_nat (if (n <? 10)%nat then 48 + n else 87 + n).

Definition hex2 (c : ascii) : str :=
  let n := nat_of_ascii c in
  String (hex_digit (n / 16)) (String (hex_digit (n mod 16)) EmptyString).

Definition contains (c : ascii) (s : str) : bool :=
  existsb (Ascii.eqb c) (list_ascii_of_string s).

(** [repr(s)] of a [str]: single quotes, or double quotes when the text
    holds a single quote and no double quote; the quote in use and the
    backslash are escaped with a backslash, tab, newline and return are
    written as backslash and [t], [n], [r], the other control characters as
    backslash, [x] and two hexadecimal digits.  Bytes above 127 are copied,
    as is right for printable non-ASCII text; the escapes Python writes for
    non-printable non-ASCII characters are not modelled. *)
Definition backslash : ascii := "092"%char.
Definition double_quote : ascii := "034"%char.
Definition single_quote : ascii := "039"%char.

Definition escaped (c : ascii) : str :=
  String backslash (String c EmptyString).

Definition repr_char (quote c : ascii) : str :=
  let n := nat_of_ascii c in
  if Ascii.eqb c quote || Ascii.eqb c backslash then escaped c
  else if (n =? 9)%nat then escaped "t"
  else if (n =? 10)%nat then escaped "n"
  else if (n =? 13)%nat then escaped "r"
  else if (n <? 32)%nat || (n =? 127)%nat then String backslash (String "x" (hex2 c))
  else String c EmptyString.

Definition repr (s : str) : str :=
  let quote :=
    if contains single_quote s && negb (contains double_quote s)
    then double_quote else single_quote in
  String quote
    (fold_right (fun c acc => repr_char quote c ++ acc)
       (String quote EmptyString) (list_ascii_of_string s)).

(** [str(e)]: the message for the message-carrying exceptions, the [repr]
    of the key for a [KeyError]. *)
Definition str_exn (e : exn) : str :=
  match e with
  | KeyError k => repr k
  | ValueError m => m
  | UniqueViolation c => c
  | PostNotFound m => m
  end.

(** [str(n)] for an integer. *)
Definition str_int (n : Z) : str := NilZero.string_of_int (Z.to_int n).

(** [int(s)] on ASCII text of at most 4300 characters ([plain] below):
    surrounding blanks (tab to carriage return, and the space) are skipped,
    one sign is allowed, digits may be grouped by single underscores.
    Outside that domain Python differs: it also reads non-ASCII decimal
    digits and blanks, and refuses numerals of more than 4300 digits. *)
Definition is_space (c : ascii) : bool :=
  let n := nat_of_ascii c in
  ((9 <=? n)%nat && (n <=? 13)%nat) || (n =? 32)%nat.

Fixpoint lstrip (l : list ascii) : list ascii :=
  match l with
  | c :: l' => if is_space c then lstrip l' else l
  | [] => []
  end.

Definition strip (l : list ascii) : list ascii :=
  rev (lstrip (rev (lstrip l))).

Definition digit_val (c : ascii) : option Z :=
  let n := nat_of_ascii c in
  if ((48 <=? n)%nat && (n <=? 57)%nat) then Some (Z.of_nat (n - 48)) else None.

Fixpoint digits (acc : Z) (after_digit : bool) (l : list ascii) : option Z :=
  match l with
  | [] => if after_digit then Some acc else None
  | c :: l' =>
      if Ascii.eqb c "_" then
        if after_digit then digits acc false l' else None
      else
        match digit_val c with
        | Some d => digits (10 * acc + d) true l'
        | None => None
        end
  end.

Definition int (s : str) : option Z :=
  match strip (list_ascii_of_string s) with
  | c :: l' =>
      if Ascii.eqb c "-" then Z.opp <$> digits 0 false l'
      else if Ascii.eqb c "+" then digits 0 false l'
      else digits 0 false (c :: l')
  | [] => None
  end.

(** The texts on which [int] above is Python's [int]: ASCII, and at most
    4300 characters long. *)
Definition plain (s : str) : bool :=
  forallb (fun c => (nat_of_ascii c <? 128)%nat) (list_ascii_of_string s)
  && (String.length s <=? 4300)%nat.

(** Values that travel in a dict handed to another layer. *)
Inductive val : Type :=
| None_
| Int (n : Z)
| Str (s : str).

Definition opt_int (o : option Z) : val :=
  match o with Some n => Int n | None => None_ end.
Definition opt_str (o : option str) : val :=
  match o with Some s => Str s | None => None_ end.

(** A computation over a state [S] that returns an [A] or raises. The
    state reached when the exception is raised is kept, as in Python. *)
Definition M (S A : Type) : Type := S -> (exn + A) * S.

Definition ret {S A} (a : A) : M S A := fun s => (inr a, s).

(** A call of a function that touches no state and returns or raises. *)
Definition call {S A} (r : exn + A) : M S A := fun s => (r, s).

Definition raise {S A} (e : exn) : M S A := fun s => (inl e, s).
Definition bind {S A B} (m : M S A) (k : A -> M S B) : M S B :=
  fun s =>
    match m s with
    | (inr a, s') => k a s'
    | (inl e, s') => (inl e, s')
    end.

(** [try: m  except <handled>: h]; an exception [handler] maps to [None]
    is not caught. *)
Definition try_except {S A} (m : M S A) (handler : exn -> option (M S A)) : M S A :=
  fun s =>
    match m s with
    | (inr a, s') => (inr a, s')
    | (inl e, s') =>
        match handler e with
        | Some h => h s'
        | None => (inl e, s')
        end
    end.

(** [d[key]] on a dict. *)
Definition getitem {S V} (d : gmap str V) (key : str) : M S V :=
  match d !! key with
  | Some v => ret v
  | None => raise (KeyError key)
  end.

End Py.

Notation "'do' x <- m ; k" := (Py.bind m (fun x => k))
  (at level 10, x name, m at level 100, k at level 200).

(** ** The standard library pieces the service uses: environment and time *)

Module Os.

(** [os.environ]. *)
Abbreviation environ := (gmap string string).

(** [os.getenv(key, default)]. *)
Definition getenv (env : environ) (key default : string) : string :=
  match env !! key with
  | Some v => v
  | None => default
  end.

End Os.

Module Datetime.

(** A naive UTC [datetime], as microseconds since the epoch.  Arithmetic on
    it is unbounded here; Python's type covers the years 1 to 9999
    ([representable] below) and raises [OverflowError] outside. *)
Definition datetime := Z.

(** [datetime.min] and [datetime.max]. *)
Definition min : datetime := -62135596800000000.
Definition max : datetime := 253402300799999999.

Definition representable (d : datetime) : Prop := min <= d <= max.

(** [timedelta(seconds=n)]. *)
Definition timedelta (seconds : Z) : Z := seconds * 1000000.

(** [calendar.timegm(d.utctimetuple())]: whole seconds since the epoch. *)
Definition timegm (d : datetime) : Z := d / 1000000.

End Datetime.

(** ** Third-party libraries, as interfaces *)

(** [bcrypt]: [hashpw(password, salt)] and [checkpw(password, hashed)].
    Either returns or raises: the library raises [ValueError] on a salt or
    stored hash that is not of its format and, in recent versions, on a
    password of more than 72 bytes. *)
Class Bcrypt : Type := {
  hashpw : Py.bytes -> Py.bytes -> Py.exn + Py.bytes;
  checkpw : Py.bytes -> Py.bytes -> Py.exn + bool
}.

(** What [jwt.encode] is given: the [sub] and [exp] entries of the claims
    dict. *)
Record Claims : Type := mkClaims {
  sub : Py.str;
  exp : Datetime.datetime
}.

(** What a verified token yields: [jose] stores [exp] as a NumericDate. *)
Record Payload : Type := mkPayload {
  p_sub : Py.str;
  p_exp : Z
}.

Definition payload_of (c : Claims) : Payload :=
  {| p_sub := sub c; p_exp := Datetime.timegm (exp c) |}.

(** [jose.jwt]: [encode(claims, key, algorithm)] and the signature check of
    [decode(token, key, algorithms)].  Tokens are opaque. *)
Class Jose : Type := {
  token : Type;
  jwt_encode : Claims -> Py.str -> Py.str -> token;
  jwt_decode : token -> Py.str -> Py.str -> option Payload
}.

(** The laws the statements below name as hypotheses. *)
Definition checkpw_hashpw `{Bcrypt} : Prop :=
  forall password salt hashed,
    hashpw password salt = inr hashed -> checkpw password hashed = inr true.

(** Whatever [bcrypt] raises is one of the exceptions [raised], a list
    fixed beforehand: its messages are not built from the password. *)
Definition bcrypt_raises `{Bcrypt} (raised : list Py.exn) : Prop :=
  (forall password salt e, hashpw password salt = inl e -> In e raised) /\
  (forall password hashed e, checkpw password hashed = inl e -> In e raised).

Definition decode_encode `{Jose} : Prop :=
  forall c key alg, jwt_decode (jwt_encode c key alg) key alg = Some (payload_of c).


(** ** The credential store *)

Record User : Type := mkUser {
  u_id : Z;
  u_user_name : Py.str;
  u_password_hash : Py.str;
  u_first_name : Py.str;
  u_last_name : Py.str
}.

(** A call the service makes on [repositories.user_repository]. *)
Inductive RepoCall : Type :=
| CreateUser (user_data : gmap string Py.str)
| GetUserByUsername (user_name : Py.str).

(** Everything outside the process that the service reads or writes: the
    users table with its id sequence, the calls made on the repository, the
    clock ([utc n] is what the n-th call of [datetime.utcnow()] returns) and
    the salt generator ([salts n] is what the n-th [bcrypt.gensalt()]
    returns). *)
Record World : Type := mkWorld {
  users : list User;
  next_id : Z;
  calls : list RepoCall;
  utc : nat -> Datetime.datetime;
  utc_reads : nat;
  salts : nat -> Py.bytes;
  salt_draws : nat
}.

Definition utcnow : Py.M World Datetime.datetime :=
  fun w =>
    (inr (utc w (utc_reads w)),
     {| users := users w; next_id := next_id w; calls := calls w;
        utc := utc w; utc_reads := S (utc_reads w);
        salts := salts w; salt_draws := salt_draws w |}).

Definition gensalt : Py.M World Py.bytes :=
  fun w =>
    (inr (salts w (salt_draws w)),
     {| users := users w; next_id := next_id w; calls := calls w;
        utc := utc w; utc_reads := utc_reads w;
        salts := salts w; salt_draws := S (salt_draws w) |}).

Module UserRepository.

Definition record_call (c : RepoCall) (w : World) : World :=
  {| users := users w; next_id := next_id w; calls := calls w ++ [c];
     utc := utc w; utc_reads := utc_reads w;
     salts := salts w; salt_draws := salt_draws w |}.

Definition find_user (name : Py.str) (us : list User) : option User :=
  List.find (fun u => String.eqb (u_user_name u) name) us.

Definition add_user (u : User) (w : World) : World :=
  {| users := users w ++ [u]; next_id := next_id w + 1; calls := calls w;
     utc := utc w; utc_reads := utc_reads w;
     salts := salts w; salt_draws := salt_draws w |}.

(** Modelled from the spec: [repositories/user_repository.py] is not among
    the sources.  [findUserByUsername(name) -> User?]: the user record
    with that username, if any. *)
Definition get_user_by_username (user_name : Py.str) : Py.M World (option User) :=
  fun w =>
    let w := record_call (GetUserByUsername user_name) w in
    (inr (find_user user_name (users w)), w).

(** Modelled from the spec: [repositories/user_repository.py] is not among
    the sources.  [insertUser(record) -> User | raises UniqueViolation]:
    the store assigns the id and enforces username uniqueness; a failed
    write leaves the table as it was. *)
Definition create_user (user_data : gmap string Py.str) : Py.M World User :=
  fun w =>
    let w := record_call (CreateUser user_data) w in
    match user_data !! "user_name", user_data !! "password_hash",
          user_data !! "first_name", user_data !! "last_name" with
    | Some name, Some hash, Some first, Some last =>
        match find_user name (users w) with
        | Some _ => (inl (Py.UniqueViolation "users_user_name_key"), w)
        | None =>
            let u := {| u_id := next_id w; u_user_name := name;
                        u_password_hash := hash;
                        u_first_name := first; u_last_name := last |} in
            (inr u, add_user u w)
        end
    | None, _, _, _ => (inl (Py.KeyError "user_name"), w)
    | _, None, _, _ => (inl (Py.KeyError "password_hash"), w)
    | _, _, None, _ => (inl (Py.KeyError "first_name"), w)
    | _, _, _, None => (inl (Py.KeyError "last_name"), w)
    end.

End UserRepository.

(** ** [services/auth_service.py] *)

Module AuthService.
Import UserRepository.

(** The four module-level constants, computed once at import. *)
Record Config : Type := mkConfig {
  ACCESS_SECRET : Py.str;
  REFRESH_SECRET : Py.str;
  ACCESS_EXPIRES : Z;
  REFRESH_EXPIRES : Z
}.

(** Lines 9-12.  [None]: an [int(...)] raised and the import failed. *)
Definition load_config (env : Os.environ) : option Config :=
  let access_secret := Os.getenv env "ACCESS_TOKEN_SECRET" "dev_secret" in
  let refresh_secret := Os.getenv env "REFRESH_TOKEN_SECRET" "dev_refresh" in
  match Py.int (Os.getenv env "ACCESS_TOKEN_EXPIRES" "3600") with
  | Some access_expires =>
      match Py.int (Os.getenv env "REFRESH_TOKEN_EXPIRES" "86400") with
      | Some refresh_expires =>
          Some {| ACCESS_SECRET := access_secret;
                  REFRESH_SECRET := refresh_secret;
                  ACCESS_EXPIRES := access_expires;
                  REFRESH_EXPIRES := refresh_expires |}
      | None => None
      end
  | None => None
  end.

(** The dict [{"access_token": ..., "refresh_token": ...}]. *)
Record TokenPair `{Jose} : Type := mkTokenPair {
  access_token : token;
  refresh_token : token
}.

Section Service.
Context `{Bcrypt} `{Jose}.
Variable cfg : Config.

Definition generate_token_pair (user_id : Z) : Py.M World TokenPair :=
  do now <- utcnow;
  let access_token :=
    jwt_encode
      {| sub := Py.str_int user_id;
         exp := now + Datetime.timedelta (ACCESS_EXPIRES cfg) |}
      (ACCESS_SECRET cfg) "HS256" in
  let refresh_token :=
    jwt_encode
      {| sub := Py.str_int user_id;
         exp := now + Datetime.timedelta (REFRESH_EXPIRES cfg) |}
      (REFRESH_SECRET cfg) "HS256" in
  Py.ret {| access_token := access_token; refresh_token := refresh_token |}.

Definition login (dto : gmap string Py.str) : Py.M World TokenPair :=
  do user_name <- Py.getitem dto "user_name";
  do user <- get_user_by_username user_name;
  match user with
  | None => Py.raise (Py.ValueError "User not found")
  | Some user =>
      do password <- Py.getitem dto "password";
      do verified <- Py.call (checkpw (Py.encode password)
                                (Py.encode (u_password_hash user)));
      if negb verified
      then Py.raise (Py.ValueError "Wrong password")
      else generate_token_pair (u_id user)
  end.

(** Lines 26-40, with the imported [create_user] as an argument. *)
Definition register_with (create_user : gmap string Py.str -> Py.M World User)
    (dto : gmap string Py.str) : Py.M World TokenPair :=
  do password <- Py.getitem dto "password";
  do salt <- gensalt;
  do hashed <- Py.call (hashpw (Py.encode password) salt);
  let password_hash := Py.decode hashed in
  do user_name <- Py.getitem dto "user_name";
  do first_name <- Py.getitem dto "first_name";
  do last_name <- Py.getitem dto "last_name";
  let user_data : gmap string Py.str :=
    <["user_name" := user_name]>
      (<["password_hash" := password_hash]>
         (<["first_name" := first_name]>
            (<["last_name" := last_name]> ∅))) in
  do user <- Py.try_except (create_user user_data)
               (fun e => match e with
                         | Py.UniqueViolation _ =>
                             Some (Py.raise (Py.ValueError "User already exists"))
                         | _ => None
                         end);
  generate_token_pair (u_id user).

(** [register] as the module has it, on the repository it imports. *)
Definition register (dto : gmap string Py.str) : Py.M World TokenPair :=
  register_with UserRepository.create_user dto.

End Service.

End AuthService.

(** ** The post store and [services/post_service.py] *)

Record Post : Type := mkPost {
  owner_id : Z;
  reply_to_id : option Z;
  body : Py.str;
  created_at : Datetime.datetime;
  view_count : Z;
  like_count : Z
}.

(** Posts by id and the LikeEdges [(post_id, user_id)]. *)
Record PostStore : Type := mkPostStore {
  posts : gmap Z Post;
  like_edges : gset (Z * Z)
}.

(** The state of a (post, viewer) like relation. *)
Inductive LikeState : Type := NotLiked | Liked.

Definition like_state (s : PostStore) (post_id viewer_id : Z) : LikeState :=
  if decide ((post_id, viewer_id) ∈ like_edges s) then Liked else NotLiked.

Definition like_count_of (s : PostStore) (post_id : Z) : option Z :=
  like_count <$> posts s !! post_id.

Module PostService.

(** Modelled from the spec: the post store is not among the sources.
    [findPost(id) -> Post?]. *)
Definition find_post (post_id : Z) : Py.M PostStore (option Post) :=
  fun s => (inr (posts s !! post_id), s).

(** Modelled from the spec: the post store is not among the sources.
    [upsertLikeEdge(post_id, user_id) -> created:boolean] inserts the edge
    only if it is absent and reports whether it did. *)
Definition upsert_like_edge (post_id user_id : Z) : Py.M PostStore bool :=
  fun s =>
    if decide ((post_id, user_id) ∈ like_edges s) then (inr false, s)
    else (inr true,
          {| posts := posts s;
             like_edges := {[ (post_id, user_id) ]} ∪ like_edges s |}).

Definition add_like (p : Post) : Post :=
  {| owner_id := owner_id p; reply_to_id := reply_to_id p; body := body p;
     created_at := created_at p; view_count := view_count p;
     like_count := like_count p + 1 |}.

(** Modelled from the spec: the post store is not among the sources.  The
    denormalized counter of one post goes up by one. *)
Definition increment_like_count (post_id : Z) : Py.M PostStore unit :=
  fun s =>
    (inr tt,
     {| posts := alter add_like post_id (posts s);
        like_edges := like_edges s |}).

(** Modelled from the spec: [services/post_service.py] is not among the
    sources.  [likePost(post_id, viewer_id)]: fails with [PostNotFound] if
    absent; creates a LikeEdge if absent and increments [like_count]; if
    the edge already exists this is a no-op, not an error. *)
Definition like_post (post_id viewer_id : Z) : Py.M PostStore unit :=
  do p <- find_post post_id;
  match p with
  | None => Py.raise (Py.PostNotFound "Post not found")
  | Some _ =>
      do created <- upsert_like_edge post_id viewer_id;
      if created then increment_like_count post_id else Py.ret tt
  end.

End PostService.

(** ** [controllers/post_controller.py] *)

Module Auth.
(** Modelled from the spec: [dependencies/auth.py] is not among the
    sources.  What [get_current_user] hands to a handler: the verified
    subject of the caller's access token, the authenticated user id. *)
Record CurrentUser : Type := mkCurrentUser { sub : Z }.
End Auth.

(** What a handler produces: its return value, an [HTTPException] it raised,
    or the framework's rejection of the request parameters (status 422)
    before the handler body runs, with the names of the offending
    parameters. *)
Inductive Response (A : Type) : Type :=
| Returned (a : A)
| HTTPException (status_code : Z) (detail : Py.str)
| RequestValidationError (params : list Py.str).
Arguments Returned {A} a.
Arguments HTTPException {A} status_code detail.
Arguments RequestValidationError {A} params.

Module PostController.

Definition HTTP_400_BAD_REQUEST : Z := 400.
Definition HTTP_404_NOT_FOUND : Z := 404.

(** [try: m  except Exception as e: raise HTTPException(status, str(e))]. *)
Definition try_or_http {S A} (status : Z) (m : Py.M S A) : S -> Response A * S :=
  fun s =>
    match m s with
    | (inr a, s') => (Returned a, s')
    | (inl e, s') => (HTTPException status (Py.str_exn e), s')
    end.

(** Modelled from the spec: [dto/post_dto.py] is not among the sources.
    The filter [{viewer_id, limit, offset, reply_to_id?, owner_id?,
    search?}], with the field names of the constructor call at lines
    28-35. *)
Record PostFilterDTO : Type := mkPostFilterDTO {
  f_user_id : Z;
  f_limit : option Z;
  f_offset : option Z;
  f_reply_to_id : option Z;
  f_owner_id : option Z;
  f_search : option Py.str
}.

(** [filter_dto.model_dump()]. *)
Definition model_dump (f : PostFilterDTO) : gmap string Py.val :=
  <["user_id" := Py.Int (f_user_id f)]>
    (<["limit" := Py.opt_int (f_limit f)]>
       (<["offset" := Py.opt_int (f_offset f)]>
          (<["reply_to_id" := Py.opt_int (f_reply_to_id f)]>
             (<["owner_id" := Py.opt_int (f_owner_id f)]>
                (<["search" := Py.opt_str (f_search f)]> ∅))))).

Section Handlers.
(** The framework's coercion of a query-string value to [int], the post
    service's state and what [get_all_posts] returns are left open. *)
Context {S R : Type}.
Variable int_of_query : Py.str -> option Z.
Variable get_all_posts : gmap string Py.val -> Py.M S R.

(** An [Optional[int]] parameter declared [Query(default=d, ge=m)],
    read from the query string: the default when the parameter is
    absent, an error unless the value is an integer [>= m]. *)
Definition Query_int (name : Py.str) (default : option Z) (ge : Z)
    (query : gmap string Py.str) : option (option Z) :=
  match query !! name with
  | None => Some default
  | Some raw =>
      match int_of_query raw with
      | Some n => if ge <=? n then Some (Some n) else None
      | None => None
      end
  end.

(** An [Optional[str]] parameter declared [Query(default=None)]. *)
Definition Query_str (name : Py.str) (query : gmap string Py.str)
    : option (option Py.str) :=
  Some (query !! name).

Definition invalid {A} (name : Py.str) (v : option A) : list Py.str :=
  match v with Some _ => [] | None => [name] end.

(** Lines 18-38. *)
Definition get_all_posts_handler (query : gmap string Py.str)
    (user : Auth.CurrentUser) : S -> Response R * S :=
  let limit := Query_int "limit" (Some 100) 1 query in
  let offset := Query_int "offset" (Some 0) 0 query in
  let reply_to_id := Query_int "reply_to_id" None 1 query in
  let owner_id := Query_int "owner_id" None 1 query in
  let search := Query_str "search" query in
  match limit, offset, reply_to_id, owner_id, search with
  | Some limit, Some offset, Some reply_to_id, Some owner_id, Some search =>
      try_or_http HTTP_400_BAD_REQUEST
        (let filter_dto :=
           {| f_user_id := Auth.sub user;
              f_limit := limit;
              f_offset := offset;
              f_reply_to_id := reply_to_id;
              f_owner_id := owner_id;
              f_search := search |} in
         get_all_posts (model_dump filter_dto))
  | _, _, _, _, _ =>
      fun s =>
        (RequestValidationError
           (invalid "limit" limit ++ invalid "offset" offset ++
            invalid "reply_to_id" reply_to_id ++
            invalid "owner_id" owner_id ++ invalid "search" search), s)
  end.

End Handlers.

(** Lines 67-72; [Path(..., gt=0)] rejects a [post_id] that is not
    positive. *)
Definition like_post_handler (post_id : Z) (user : Auth.CurrentUser)
    : PostStore -> Response unit * PostStore :=
  if 0 <? post_id then
    try_or_http HTTP_404_NOT_FOUND
      (PostService.like_post post_id (Auth.sub user))
  else
    fun s => (RequestValidationError ["post_id"], s).

End PostController.

(** ** Derived notions used in the statements *)

Module Statements.
Import AuthService.

(** The token pair for [user_id] issued at the instant [now]. *)
Definition minted `{Jose} (cfg : Config) (user_id : Z) (now : Datetime.datetime)
    : TokenPair :=
  {| access_token :=
       jwt_encode
         {| sub := Py.str_int user_id;
            exp := now + Datetime.timedelta (ACCESS_EXPIRES cfg) |}
         (ACCESS_SECRET cfg) "HS256";
     refresh_token :=
       jwt_encode
         {| sub := Py.str_int user_id;
            exp := now + Datetime.timedelta (REFRESH_EXPIRES cfg) |}
         (REFRESH_SECRET cfg) "HS256" |}.

(** The record [register] builds from a request and a hash. *)
Definition user_record (user_name password_hash first_name last_name : Py.str)
    : gmap string Py.str :=
  <["user_name" := user_name]>
    (<["password_hash" := password_hash]>
       (<["first_name" := first_name]>
          (<["last_name" := last_name]> ∅))).

(** The messages [register] and [login] can fail with. *)
Definition register_errors : list Py.exn :=
  [ Py.ValueError "User already exists";
    Py.KeyError "password"; Py.KeyError "user_name";
    Py.KeyError "first_name"; Py.KeyError "last_name" ].

Definition login_errors : list Py.exn :=
  [ Py.ValueError "User not found"; Py.ValueError "Wrong password";
    Py.KeyError "user_name"; Py.KeyError "password" ].

(** The configuration as the specification words it: the four options
    under the names it lists, the secrets with the defaults of the code. *)
Definition spec_load_config (env : Os.environ) : option Config :=
  match Py.int (Os.getenv env "access_token_ttl_seconds" "3600"),
        Py.int (Os.getenv env "refresh_token_ttl_seconds" "86400") with
  | Some access_ttl, Some refresh_ttl =>
      Some {| ACCESS_SECRET := Os.getenv env "access_token_secret" "dev_secret";
              REFRESH_SECRET := Os.getenv env "refresh_token_secret" "dev_refresh";
              ACCESS_EXPIRES := access_ttl;
              REFRESH_EXPIRES := refresh_ttl |}
  | _, _ => None
  end.

(** The query string carries, for the parameter [name], a value that is
    not an integer [>= ge]. *)
Definition out_of_range (int_of_query : Py.str -> option Z)
    (query : gmap string Py.str) (name : Py.str) (ge : Z) : Prop :=
  exists raw, query !! name = Some raw /\
    forall n, int_of_query raw = Some n -> n < ge.

(** Two query strings that agree on the five parameters the listing
    handler declares. *)
Definition same_declared_parameters (query query' : gmap string Py.str) : Prop :=
  forall name, In name ["limit"; "offset"; "reply_to_id"; "owner_id"; "search"] ->
    query' !! name = query !! name.

(** Two environments that agree on the four variables the module reads. *)
Definition same_token_options (env env' : Os.environ) : Prop :=
  env !! "ACCESS_TOKEN_SECRET" = env' !! "ACCESS_TOKEN_SECRET" /\
  env !! "REFRESH_TOKEN_SECRET" = env' !! "REFRESH_TOKEN_SECRET" /\
  env !! "ACCESS_TOKEN_EXPIRES" = env' !! "ACCESS_TOKEN_EXPIRES" /\
  env !! "REFRESH_TOKEN_EXPIRES" = env' !! "REFRESH_TOKEN_EXPIRES".

End Statements.

(** ** Stand-ins for the two libraries and sample data

    A symbolic reading of [bcrypt] and [jose], to evaluate the service on
    concrete requests: a hash is the tagged password, a token is the signed
    term itself and verifies only under the key and algorithm it was signed
    with. *)

Module Sample.
Import AuthService.

(** What [bcrypt] 5 raises on a password of more than 72 bytes, and what
    it raises on a stored hash that is not of its format. *)
Definition too_long : Py.exn :=
  Py.ValueError
    "password cannot be longer than 72 bytes, truncate manually if necessary (e.g. my_password[:72])".

Definition invalid_salt : Py.exn := Py.ValueError "Invalid salt".

Definition bcrypt : Bcrypt :=
  {| hashpw := fun password _ =>
       if (72 <? length password)%nat then inl too_long
       else inr (Byte.x24 :: password);
     checkpw := fun password hashed =>
       if (72 <? length password)%nat then inl too_long
       else match hashed with
            | Byte.x24 :: stored =>
                inr (String.eqb (Py.decode stored) (Py.decode password))
            | _ => inl invalid_salt
            end |}.

Definition jose : Jose :=
  {| token := Claims * Py.str * Py.str;
     jwt_encode := fun c key alg => (c, key, alg);
     jwt_decode := fun t key alg =>
       match t with
       | (c, key', alg') =>
           if String.eqb key' key && String.eqb alg' alg
           then Some (payload_of c) else None
       end |}.

Definition dev_config : Config :=
  {| ACCESS_SECRET := "dev_secret"; REFRESH_SECRET := "dev_refresh";
     ACCESS_EXPIRES := 3600; REFRESH_EXPIRES := 86400 |}.

(** An empty database; the clock advances a quarter of a second between
    two readings. *)
Definition empty_world : World :=
  {| users := []; next_id := 1; calls := [];
     utc := fun n => 1700000000000000 + 250000 * Z.of_nat n; utc_reads := 0;
     salts := fun _ => Py.encode "$2b$12$abcdefghijklmnopqrstuv";
     salt_draws := 0 |}.

Definition alice : User :=
  {| u_id := 1; u_user_name := "alice";
     u_password_hash := "$s3cret";
     u_first_name := "Alice"; u_last_name := "Liddell" |}.

(** The database once alice has registered with password [s3cret]. *)
Definition alice_world : World :=
  {| users := [alice]; next_id := 2; calls := [];
     utc := utc empty_world; utc_reads := 0;
     salts := salts empty_world; salt_draws := 0 |}.

(** A password of 73 bytes. *)
Definition long_password : Py.str :=
  "0123456789012345678901234567890123456789012345678901234567890123456789012".

(** A table whose row for mallory holds a hash that is not a bcrypt hash. *)
Definition mallory : User :=
  {| u_id := 1; u_user_name := "mallory";
     u_password_hash := "plain";
     u_first_name := "Mal"; u_last_name := "Lory" |}.

Definition mallory_world : World :=
  {| users := [mallory]; next_id := 2; calls := [];
     utc := utc empty_world; utc_reads := 0;
     salts := salts empty_world; salt_draws := 0 |}.

(** A repository whose insert always fails for a reason of its own. *)
Definition failing_create_user (user_data : gmap string Py.str)
    : Py.M World User :=
  Py.raise (Py.KeyError "users").

Definition credentials (user_name password : Py.str) : gmap string Py.str :=
  <["user_name" := user_name]> (<["password" := password]> ∅).

Definition registration (user_name password first_name last_name : Py.str)
    : gmap string Py.str :=
  <["user_name" := user_name]>
    (<["password" := password]>
       (<["first_name" := first_name]>
          (<["last_name" := last_name]> ∅))).


(** The TTL options under the names of the specification, in both
    spellings. *)
Definition ttl_seconds_env : Os.environ :=
  <["access_token_ttl_seconds" := "60"]>
    (<["ACCESS_TOKEN_TTL_SECONDS" := "60"]>
       (<["refresh_token_ttl_seconds" := "120"]>
          (<["REFRESH_TOKEN_TTL_SECONDS" := "120"]> ∅))).

(** The TTL options under the names the module reads. *)
Definition expires_env : Os.environ :=
  <["ACCESS_TOKEN_EXPIRES" := "60"]> (<["REFRESH_TOKEN_EXPIRES" := "120"]> ∅).

Definition hello : Post :=
  {| owner_id := 1; reply_to_id := None; body := "hello";
     created_at := 1700000000000000; view_count := 0; like_count := 5 |}.

(** Post 1 exists; nobody likes it yet in [fresh_store], user 7 already
    does in [liked_store]. *)
Definition fresh_store : PostStore :=
  {| posts := {[ 1 := hello ]}; like_edges := ∅ |}.

Definition liked_store : PostStore :=
  {| posts := {[ 1 := hello ]}; like_edges := {[ (1, 7) ]} |}.

Definition viewer : Auth.CurrentUser := {| Auth.sub := 7 |}.

(** A listing request that also carries a [user_id] of its own. *)
Definition forged_query : gmap string Py.str :=
  <["limit" := "5"]> (<["user_id" := "999"]> (<["search" := "gopher"]> ∅)).

(** A post service that answers with the filter it was given. *)
Definition echo_posts (filter : gmap string Py.val)
    : Py.M unit (gmap string Py.val) :=
  Py.ret filter.

End Sample.

(** ** [create_post_handler] of [controllers/post_controller.py] *)

Module PostHandlers.
Import PostController.

Section Creation.
(** The post service is left open: any state, any result, and any type of
    exceptions [E], of which the handler sees [str(e)] only. *)
Context {S R E : Type}.
Variable str_of : E -> Py.str.
Variable print : gmap string Py.val -> S -> S.
Variable create_post : gmap string Py.val -> S -> (E + R) * S.

(** Lines 41-48.  Modelled from the spec: [dto/post_dto.py] is not among
    the sources; the validated body [dto: PostCreateDTO] is its fields by
    name, [dto.user_id = ...] sets the field [user_id], and
    [dto.model_dump()] is that dict.  [print(dto)] acts on the state, which
    holds whatever standard output is. *)
Definition create_post_handler (dto : gmap string Py.val)
    (user : Auth.CurrentUser) : S -> Response R * S :=
  fun s =>
    let dto := <["user_id" := Py.Int (Auth.sub user)]> dto in
    let s := print dto s in
    match create_post dto s with
    | (inr post, s') => (Returned post, s')
    | (inl e, s') => (HTTPException HTTP_400_BAD_REQUEST (str_of e), s')
    end.

End Creation.

End PostHandlers.

Module Outcomes.

(** Two request bodies that differ at most in their [user_id] field. *)
Definition same_but_user_id (dto dto' : gmap string Py.val) : Prop :=
  forall field, field <> "user_id" -> dto !! field = dto' !! field.

End Outcomes.

Module MoreSamples.

(** A creation body that claims to come from user 999. *)
Definition forged_body : gmap string Py.val :=
  <["text" := Py.Str "hello"]> (<["user_id" := Py.Int 999]> ∅).

Definition honest_body : gmap string Py.val :=
  <["text" := Py.Str "hello"]> ∅.

(** Standard output as the list of printed objects, latest first. *)
Definition print_to (dto : gmap string Py.val) (out : list (gmap string Py.val))
    : list (gmap string Py.val) :=
  dto :: out.

Definition echo_create (dto : gmap string Py.val)
    (out : list (gmap string Py.val))
    : (Py.exn + gmap string Py.val) * list (gmap string Py.val) :=
  (inr dto, out).

(** A TTL that is no number. *)
Definition bad_ttl_env : Os.environ :=
  <["ACCESS_TOKEN_EXPIRES" := "soon"]> ∅.

(** TTLs of zero and of minus five seconds. *)
Definition expired_env : Os.environ :=
  <["ACCESS_TOKEN_EXPIRES" := "0"]> (<["REFRESH_TOKEN_EXPIRES" := "-5"]> ∅).

End MoreSamples.

(** The characters of a decimal numeral, as [str(n)] writes them. *)
Definition digit_chars (d : Decimal.uint) : list ascii :=
  list_ascii_of_string (NilEmpty.string_of_uint d).

(** * Properties *)

(** ** Facts about the stand-ins and the store *)

Lemma sample_checkpw_hashpw : @checkpw_hashpw Sample.bcrypt.
Proof.
  intros password salt hashed. simpl.
  destruct (72 <? length password)%nat; [discriminate|].
  intros [= <-]. now rewrite String.eqb_refl.
Qed.

Lemma sample_bcrypt_raises :
  @bcrypt_raises Sample.bcrypt [Sample.too_long; Sample.invalid_salt].
Proof.
  split.
  - intros password salt e. simpl.
    destruct (72 <? length password)%nat; [|discriminate].
    intros [= <-]. now left.
  - intros password hashed e. simpl.
    destruct (72 <? length password)%nat; [intros [= <-]; now left|].
    destruct hashed as [|b stored]; [intros [= <-]; right; now left|].
    destruct b; intros [= <-]; right; now left.
Qed.

Lemma sample_decode_encode : @decode_encode Sample.jose.
Proof.
  intros c key alg. simpl. now rewrite !String.eqb_refl.
Qed.


Lemma encode_decode_hash (b : Py.bytes) : Py.encode (Py.decode b) = b.
Proof. apply list_byte_of_string_of_list_byte. Qed.

Lemma find_user_app_new (name : Py.str) (us : list User) (u : User) :
  UserRepository.find_user name us = None ->
  u_user_name u = name ->
  UserRepository.find_user name (us ++ [u]) = Some u.
Proof.
  unfold UserRepository.find_user. intros Hnone Hname.
  induction us as [|v us IH]; simpl in *.
  - rewrite Hname, String.eqb_refl. reflexivity.
  - destruct (String.eqb (u_user_name v) name); [discriminate | auto].
Qed.

Section AuthProperties.
Import AuthService UserRepository Statements.
Context `{Bcrypt} `{Jose}.
Variable cfg : Config.

(** Minting reads the clock once and cannot fail. *)
Lemma generate_token_pair_eq (user_id : Z) (w : World) :
  generate_token_pair cfg user_id w =
    (inr (minted cfg user_id (utc w (utc_reads w))), snd (utcnow w)).
Proof. reflexivity. Qed.

(** [login] on a request that carries both fields. *)
Lemma login_eq (dto : gmap string Py.str) (w : World) (user_name password : Py.str) :
  dto !! "user_name" = Some user_name ->
  dto !! "password" = Some password ->
  login cfg dto w =
    let w1 := record_call (GetUserByUsername user_name) w in
    match find_user user_name (users w) with
    | None => (inl (Py.ValueError "User not found"), w1)
    | Some user =>
        match checkpw (Py.encode password) (Py.encode (u_password_hash user)) with
        | inl e => (inl e, w1)
        | inr true => generate_token_pair cfg (u_id user) w1
        | inr false => (inl (Py.ValueError "Wrong password"), w1)
        end
    end.
Proof.
  intros Hname Hpw.
  unfold login, Py.getitem, Py.bind, get_user_by_username.
  rewrite Hname. unfold Py.ret at 1.
  change (users (record_call (GetUserByUsername user_name) w)) with (users w).
  cbv zeta.
  destruct (find_user user_name (users w)) as [user|]; [|reflexivity].
  rewrite Hpw. unfold Py.ret at 1. unfold Py.call.
  destruct (checkpw _ _) as [e|[|]]; reflexivity.
Qed.

(** C1 (as the code has it). On a request that carries both fields, [login]
    fails with "User not found" when the store has no user of that name,
    with "Wrong password" when the user exists and [checkpw] returns False,
    and returns the token pair minted for the stored user's id when
    [checkpw] returns True; when [checkpw] itself raises, that exception is
    what [login] fails with; and it fails in no other way. *)
Theorem login_outcome (dto : gmap string Py.str) (w : World)
    (user_name password : Py.str) :
  dto !! "user_name" = Some user_name ->
  dto !! "password" = Some password ->
  let outcome := fst (login cfg dto w) in
  let check user := checkpw (Py.encode password) (Py.encode (u_password_hash user)) in
  (find_user user_name (users w) = None ->
     outcome = inl (Py.ValueError "User not found")) /\
  (forall user, find_user user_name (users w) = Some user ->
     check user = inr false ->
     outcome = inl (Py.ValueError "Wrong password")) /\
  (forall user, find_user user_name (users w) = Some user ->
     check user = inr true ->
     outcome = inr (minted cfg (u_id user) (utc w (utc_reads w)))) /\
  (forall user raised, find_user user_name (users w) = Some user ->
     check user = inl raised ->
     outcome = inl raised) /\
  (forall e, outcome = inl e ->
     e = Py.ValueError "User not found" /\ find_user user_name (users w) = None \/
     (exists user, find_user user_name (users w) = Some user /\
        (e = Py.ValueError "Wrong password" /\ check user = inr false \/
         check user = inl e))).
Proof.
  intros Hname Hpw outcome check. subst outcome check.
  rewrite (login_eq dto w user_name password Hname Hpw). cbv zeta.
  destruct (find_user user_name (users w)) as [user|] eqn:Hfind.
  - destruct (checkpw (Py.encode password) (Py.encode (u_password_hash user)))
      as [raised|[|]] eqn:Hcheck.
    + cbn [fst]. repeat split; try discriminate.
      * intros u [= <-]. congruence.
      * intros u [= <-]. congruence.
      * intros u r [= <-]. congruence.
      * intros e [= <-]. right. exists user. split; [reflexivity|]. now right.
    + rewrite generate_token_pair_eq. cbn [fst].
      repeat split; try discriminate.
      * intros u [= <-]. congruence.
      * intros u [= <-] _. reflexivity.
      * intros u r [= <-]. congruence.
    + cbn [fst]. repeat split; try discriminate.
      * intros u [= <-]. congruence.
      * intros u r [= <-]. congruence.
      * intros e [= <-]. right. exists user. split; [reflexivity|]. now left.
  - cbn [fst]. repeat split; try discriminate.
    intros e [= <-]. left. split; reflexivity.
Qed.

End AuthProperties.

Lemma login_outcome_witness :
  fst (@AuthService.login Sample.bcrypt Sample.jose Sample.dev_config
         (Sample.credentials "alice" "s3cret") Sample.alice_world)
  = inr (@Statements.minted Sample.jose Sample.dev_config 1 1700000000000000).
Proof.
  destruct (@login_outcome Sample.bcrypt Sample.jose Sample.dev_config
              (Sample.credentials "alice" "s3cret") Sample.alice_world
              "alice" "s3cret" eq_refl eq_refl) as (_ & _ & Hverified & _).
  exact (Hverified Sample.alice eq_refl eq_refl).
Defined.

(** C1 (as stated) fails: [login] has a third way to fail.  With a
    registered username it fails with what [bcrypt.checkpw] raises, which
    is neither of the two errors of the claim: on a password of 73 bytes
    against a well-formed stored hash, and on any password against a stored
    hash that is not a bcrypt hash. *)
Lemma login_fails_in_checkpw :
  UserRepository.find_user "alice" (users Sample.alice_world) = Some Sample.alice /\
  String.length Sample.long_password = 73%nat /\
  fst (@AuthService.login Sample.bcrypt Sample.jose Sample.dev_config
         (Sample.credentials "alice" Sample.long_password) Sample.alice_world)
    = inl Sample.too_long /\
  UserRepository.find_user "mallory" (users Sample.mallory_world)
    = Some Sample.mallory /\
  fst (@AuthService.login Sample.bcrypt Sample.jose Sample.dev_config
         (Sample.credentials "mallory" "plain") Sample.mallory_world)
    = inl (Py.ValueError "Invalid salt") /\
  Sample.too_long <> Py.ValueError "User not found" /\
  Sample.too_long <> Py.ValueError "Wrong password" /\
  Py.ValueError "Invalid salt" <> Py.ValueError "User not found" /\
  Py.ValueError "Invalid salt" <> Py.ValueError "Wrong password".
Proof.
  repeat split; try (vm_compute; reflexivity); discriminate.
Qed.

(** ** Registration *)

Section RegisterProperties.
Import AuthService UserRepository Statements.
Context `{Bcrypt} `{Jose}.
Variable cfg : Config.

(** The store's insert on a complete record: a uniqueness violation when
    the username is taken, the new row under the next id otherwise. *)
Lemma create_user_record (w : World) (name hash first last : Py.str) :
  create_user (user_record name hash first last) w =
    let w1 := record_call (CreateUser (user_record name hash first last)) w in
    match find_user name (users w) with
    | Some _ => (inl (Py.UniqueViolation "users_user_name_key"), w1)
    | None =>
        let u := mkUser (next_id w) name hash first last in
        (inr u, add_user u w1)
    end.
Proof. reflexivity. Qed.

(** [register] on a request that carries the four fields, for any
    repository. *)
Lemma register_with_eq (insert : gmap string Py.str -> Py.M World User)
    (dto : gmap string Py.str) (w : World)
    (user_name password first_name last_name : Py.str) :
  dto !! "password" = Some password ->
  dto !! "user_name" = Some user_name ->
  dto !! "first_name" = Some first_name ->
  dto !! "last_name" = Some last_name ->
  register_with cfg insert dto w =
    match hashpw (Py.encode password) (salts w (salt_draws w)) with
    | inl e => (inl e, snd (gensalt w))
    | inr hashed =>
        let user_data :=
          user_record user_name (Py.decode hashed) first_name last_name in
        match insert user_data (snd (gensalt w)) with
        | (inr user, w2) => generate_token_pair cfg (u_id user) w2
        | (inl (Py.UniqueViolation _), w2) =>
            (inl (Py.ValueError "User already exists"), w2)
        | (inl e, w2) => (inl e, w2)
        end
    end.
Proof.
  intros Hpw Hname Hfirst Hlast.
  unfold register_with, Py.getitem.
  rewrite Hpw, Hname, Hfirst, Hlast.
  unfold Py.bind at 1. unfold Py.ret at 1.
  unfold Py.bind at 1. unfold gensalt at 1.
  unfold Py.bind at 1. unfold Py.call.
  destruct (hashpw (Py.encode password) (salts w (salt_draws w))) as [e|hashed];
    [reflexivity|].
  unfold Py.bind at 1. unfold Py.ret at 1.
  unfold Py.bind at 1. unfold Py.ret at 1.
  unfold Py.bind at 1. unfold Py.ret at 1.
  unfold Py.bind at 1. unfold Py.try_except. cbv zeta.
  fold (user_record user_name (Py.decode hashed) first_name last_name).
  destruct (insert _ _) as [[e|user] w2]; [|reflexivity].
  destruct e; reflexivity.
Qed.

(** [register] on a complete request, in terms of the table alone. *)
Lemma register_result (dto : gmap string Py.str) (w : World)
    (user_name password first_name last_name : Py.str) :
  dto !! "password" = Some password ->
  dto !! "user_name" = Some user_name ->
  dto !! "first_name" = Some first_name ->
  dto !! "last_name" = Some last_name ->
  register cfg dto w =
    match hashpw (Py.encode password) (salts w (salt_draws w)) with
    | inl e => (inl e, snd (gensalt w))
    | inr hashed =>
        let password_hash := Py.decode hashed in
        let user_data := user_record user_name password_hash first_name last_name in
        let w1 := record_call (CreateUser user_data) (snd (gensalt w)) in
        match find_user user_name (users w) with
        | Some _ => (inl (Py.ValueError "User already exists"), w1)
        | None =>
            let u := mkUser (next_id w) user_name password_hash first_name last_name in
            (inr (minted cfg (next_id w) (utc w (utc_reads w))),
             snd (utcnow (add_user u w1)))
        end
    end.
Proof.
  intros Hpw Hname Hfirst Hlast. unfold register.
  rewrite (register_with_eq create_user dto w user_name password first_name last_name
             Hpw Hname Hfirst Hlast).
  destruct (hashpw (Py.encode password) (salts w (salt_draws w))) as [e|hashed];
    [reflexivity|].
  cbv zeta. rewrite create_user_record. cbv zeta.
  change (users (snd (gensalt w))) with (users w).
  destruct (find_user user_name (users w)); [reflexivity|].
  rewrite generate_token_pair_eq. reflexivity.
Qed.

(** C2 (as the code has it). On a request that carries the four fields:
    when [bcrypt.hashpw] raises, [register] fails with that exception and
    the repository is not called.  Otherwise the insert is called with the
    record built from the request and the hash and, whatever repository
    stands behind it, [register] fails with "User already exists" when the
    insert raises a uniqueness violation, passes on unchanged any other
    exception the insert raises, and returns the token pair minted for the
    id of the user the insert returns.  With the store of the
    specification the insert is the only call made on the repository (no
    lookup precedes it), [register] fails with "User already exists"
    exactly when the insert reports a uniqueness violation, and otherwise
    the new user is in the table and the pair is minted for its id. *)
Theorem register_outcome (insert : gmap string Py.str -> Py.M World User)
    (dto : gmap string Py.str) (w : World)
    (user_name password first_name last_name : Py.str) :
  dto !! "password" = Some password ->
  dto !! "user_name" = Some user_name ->
  dto !! "first_name" = Some first_name ->
  dto !! "last_name" = Some last_name ->
  let hashing := hashpw (Py.encode password) (salts w (salt_draws w)) in
  let w1 := snd (gensalt w) in
  (forall raised, hashing = inl raised ->
     register_with cfg insert dto w = (inl raised, w1) /\
     register cfg dto w = (inl raised, w1) /\
     calls w1 = calls w) /\
  (forall hashed, hashing = inr hashed ->
     let user_data :=
       user_record user_name (Py.decode hashed) first_name last_name in
     let inserted := insert user_data w1 in
     let result := register_with cfg insert dto w in
     (forall c, fst inserted = inl (Py.UniqueViolation c) ->
        result = (inl (Py.ValueError "User already exists"), snd inserted)) /\
     (forall e, fst inserted = inl e -> (forall c, e <> Py.UniqueViolation c) ->
        result = (inl e, snd inserted)) /\
     (forall user, fst inserted = inr user ->
        result = generate_token_pair cfg (u_id user) (snd inserted)) /\
     (fst inserted <> inl (Py.ValueError "User already exists") ->
        (fst result = inl (Py.ValueError "User already exists") <->
         exists c, fst inserted = inl (Py.UniqueViolation c))) /\
     let stored := create_user user_data w1 in
     let registered := register cfg dto w in
     calls (snd registered) = (calls w ++ [CreateUser user_data])%list /\
     (fst registered = inl (Py.ValueError "User already exists") <->
        exists c, fst stored = inl (Py.UniqueViolation c)) /\
     ((exists c, fst stored = inl (Py.UniqueViolation c)) \/
      (exists user,
         fst stored = inr user /\
         find_user user_name (users w) = None /\
         find_user user_name (users (snd registered)) = Some user /\
         fst registered = inr (minted cfg (u_id user) (utc w (utc_reads w)))))).
Proof.
  intros Hpw Hname Hfirst Hlast hashing w1. subst hashing w1. split.
  - intros raised Hraised.
    rewrite (register_result dto w user_name password first_name last_name
               Hpw Hname Hfirst Hlast).
    rewrite (register_with_eq insert dto w user_name password first_name last_name
               Hpw Hname Hfirst Hlast).
    rewrite Hraised. repeat split.
  - intros hashed Hhashed. cbv zeta.
    rewrite (register_result dto w user_name password first_name last_name
               Hpw Hname Hfirst Hlast).
    rewrite (register_with_eq insert dto w user_name password first_name last_name
               Hpw Hname Hfirst Hlast).
    rewrite Hhashed. cbv zeta.
    set (user_data := user_record user_name (Py.decode hashed) first_name last_name).
    split; [|split; [|split; [|split]]].
    + intros c Hc. destruct (insert user_data (snd (gensalt w))) as [r w2].
      cbn [fst snd] in *. now subst r.
    + intros e He Hnot. destruct (insert user_data (snd (gensalt w))) as [r w2].
      cbn [fst snd] in *. subst r.
      destruct e; try reflexivity. now destruct (Hnot constraint).
    + intros user Huser. destruct (insert user_data (snd (gensalt w))) as [r w2].
      cbn [fst snd] in *. now subst r.
    + intros Hnot. destruct (insert user_data (snd (gensalt w))) as [[e|user] w2].
      * cbn [fst] in *. destruct e as [key|msg|c|msg]; cbn [fst].
        -- split; [discriminate | intros [c Hc]; discriminate].
        -- split; [intros [= ->]; now destruct Hnot | intros [c Hc]; discriminate].
        -- split; [intros _; eexists; reflexivity | reflexivity].
        -- split; [discriminate | intros [c Hc]; discriminate].
      * rewrite generate_token_pair_eq. cbn [fst]. split;
          [discriminate | intros [c Hc]; discriminate].
    + subst user_data. rewrite create_user_record. cbv zeta.
      change (users (snd (gensalt w))) with (users w).
      destruct (find_user user_name (users w)) as [taken|] eqn:Hfind.
      * cbn [fst snd]. split; [reflexivity|]. split.
        -- split; intros _; [eexists|]; reflexivity.
        -- left. eexists. reflexivity.
      * cbn [fst snd]. split; [reflexivity|]. split.
        -- split; [discriminate | intros [c Hc]; discriminate].
        -- right. eexists. split; [reflexivity|]. split; [reflexivity|]. split.
           ++ cbn. apply find_user_app_new; [exact Hfind | reflexivity].
           ++ reflexivity.
Qed.

End RegisterProperties.

Lemma register_outcome_witness :
  calls (snd (@AuthService.register Sample.bcrypt Sample.jose Sample.dev_config
                (Sample.registration "alice" "other" "Al" "Ice")
                Sample.alice_world))
  = [CreateUser (Statements.user_record "alice" "$other" "Al" "Ice")] /\
  fst (@AuthService.register Sample.bcrypt Sample.jose Sample.dev_config
         (Sample.registration "alice" "other" "Al" "Ice") Sample.alice_world)
  = inl (Py.ValueError "User already exists") /\
  fst (@AuthService.register_with Sample.bcrypt Sample.jose Sample.dev_config
         Sample.failing_create_user
         (Sample.registration "alice" "other" "Al" "Ice") Sample.alice_world)
  = inl (Py.KeyError "users").
Proof.
  destruct (@register_outcome Sample.bcrypt Sample.jose Sample.dev_config
              Sample.failing_create_user
              (Sample.registration "alice" "other" "Al" "Ice")
              Sample.alice_world "alice" "other" "Al" "Ice"
              eq_refl eq_refl eq_refl eq_refl) as (_ & Hhashed).
  destruct (Hhashed _ eq_refl) as (_ & Hother & _ & _ & Hcalls & Hexists & _).
  split; [exact Hcalls|]. split.
  - apply Hexists. exists "users_user_name_key". reflexivity.
  - rewrite (Hother (Py.KeyError "users") eq_refl); [reflexivity|].
    intros c. discriminate.
Defined.

(** C2 (as stated) fails: a registration can fail without any uniqueness
    violation and without returning a token pair.  With a username that is
    not registered and a password of 73 bytes, [register] fails with what
    [bcrypt.hashpw] raises; the repository was never called and the table
    is unchanged. *)
Lemma register_fails_in_hashpw :
  UserRepository.find_user "bob" (users Sample.alice_world) = None /\
  String.length Sample.long_password = 73%nat /\
  fst (@AuthService.register Sample.bcrypt Sample.jose Sample.dev_config
         (Sample.registration "bob" Sample.long_password "Bob" "Builder")
         Sample.alice_world)
    = inl Sample.too_long /\
  calls (snd (@AuthService.register Sample.bcrypt Sample.jose Sample.dev_config
                (Sample.registration "bob" Sample.long_password "Bob" "Builder")
                Sample.alice_world)) = [] /\
  users (snd (@AuthService.register Sample.bcrypt Sample.jose Sample.dev_config
                (Sample.registration "bob" Sample.long_password "Bob" "Builder")
                Sample.alice_world)) = [Sample.alice] /\
  Sample.too_long <> Py.ValueError "User already exists".
Proof.
  repeat split; try (vm_compute; reflexivity); discriminate.
Qed.

Section RegisterThenLogin.
Import AuthService UserRepository Statements.
Context `{Bcrypt} `{Jose}.
Variable cfg : Config.

(** C3. For a registration request whose username is not in the store and
    whose password [hashpw] accepts, [register] succeeds, a following
    [login] with the same username and password succeeds, and the access
    tokens of both calls verify to the same subject, the id of the new
    user. *)
Theorem register_then_login (dto dto' : gmap string Py.str) (w : World)
    (user_name password first_name last_name : Py.str) (hashed : Py.bytes) :
  checkpw_hashpw ->
  decode_encode ->
  dto !! "password" = Some password ->
  dto !! "user_name" = Some user_name ->
  dto !! "first_name" = Some first_name ->
  dto !! "last_name" = Some last_name ->
  dto' !! "user_name" = Some user_name ->
  dto' !! "password" = Some password ->
  find_user user_name (users w) = None ->
  hashpw (Py.encode password) (salts w (salt_draws w)) = inr hashed ->
  exists tp1 w1 tp2 w2,
    register cfg dto w = (inr tp1, w1) /\
    login cfg dto' w1 = (inr tp2, w2) /\
    p_sub <$> jwt_decode (access_token tp1) (ACCESS_SECRET cfg) "HS256"
      = Some (Py.str_int (next_id w)) /\
    p_sub <$> jwt_decode (access_token tp2) (ACCESS_SECRET cfg) "HS256"
      = Some (Py.str_int (next_id w)).
Proof.
  intros Hhash Hjwt Hpw Hname Hfirst Hlast Hname' Hpw' Hfresh Hhashed.
  rewrite (register_result cfg dto w user_name password first_name last_name
             Hpw Hname Hfirst Hlast).
  rewrite Hhashed. cbv zeta. rewrite Hfresh.
  set (hash := Py.decode hashed).
  set (u := mkUser (next_id w) user_name hash first_name last_name).
  set (w1 := snd (utcnow _)).
  assert (Hfound : find_user user_name (users w1) = Some u).
  { subst w1. cbn. apply find_user_app_new; [exact Hfresh | reflexivity]. }
  assert (Hcheck : checkpw (Py.encode password) (Py.encode (u_password_hash u))
                   = inr true).
  { subst u hash. cbn [u_password_hash]. rewrite encode_decode_hash.
    exact (Hhash _ _ _ Hhashed). }
  do 4 eexists. split; [reflexivity|]. split.
  - rewrite (login_eq cfg dto' w1 user_name password Hname' Hpw').
    cbv zeta. rewrite Hfound, Hcheck. apply generate_token_pair_eq.
  - unfold minted. cbn [access_token]. rewrite !Hjwt. split; reflexivity.
Qed.

End RegisterThenLogin.

Lemma register_then_login_witness :
  exists tp1 w1 tp2 w2,
    @AuthService.register Sample.bcrypt Sample.jose Sample.dev_config
      (Sample.registration "bob" "hunter2" "Bob" "Builder") Sample.alice_world
      = (inr tp1, w1) /\
    @AuthService.login Sample.bcrypt Sample.jose Sample.dev_config
      (Sample.credentials "bob" "hunter2") w1 = (inr tp2, w2) /\
    p_sub <$> @jwt_decode Sample.jose (AuthService.access_token tp1) "dev_secret" "HS256"
      = Some "2" /\
    p_sub <$> @jwt_decode Sample.jose (AuthService.access_token tp2) "dev_secret" "HS256"
      = Some "2".
Proof.
  exact (@register_then_login Sample.bcrypt Sample.jose Sample.dev_config
           (Sample.registration "bob" "hunter2" "Bob" "Builder")
           (Sample.credentials "bob" "hunter2") Sample.alice_world
           "bob" "hunter2" "Bob" "Builder" (Py.encode "$hunter2")
           sample_checkpw_hashpw sample_decode_encode
           eq_refl eq_refl eq_refl eq_refl eq_refl eq_refl eq_refl eq_refl).
Defined.

(** ** Token minting *)

Lemma timegm_add_seconds (now : Datetime.datetime) (seconds : Z) :
  Datetime.timegm (now + Datetime.timedelta seconds) = Datetime.timegm now + seconds.
Proof.
  unfold Datetime.timegm, Datetime.timedelta. apply Z.div_add. lia.
Qed.

Section Minting.
Import AuthService Statements.
Context `{Jose}.

(** C4. The two tokens of a minted pair verify to the same subject, the
    decimal form of the user id, and both expiry times are offsets from
    the one clock reading minting takes: that reading plus the access
    TTL and plus the refresh TTL. *)
Theorem token_pair_subject_and_instant (cfg : Config) (user_id : Z) (w : World) :
  decode_encode ->
  exists tp w',
    generate_token_pair cfg user_id w = (inr tp, w') /\
    utc_reads w' = S (utc_reads w) /\
    let now := utc w (utc_reads w) in
    jwt_decode (access_token tp) (ACCESS_SECRET cfg) "HS256"
      = Some {| p_sub := Py.str_int user_id;
                p_exp := Datetime.timegm now + ACCESS_EXPIRES cfg |} /\
    jwt_decode (refresh_token tp) (REFRESH_SECRET cfg) "HS256"
      = Some {| p_sub := Py.str_int user_id;
                p_exp := Datetime.timegm now + REFRESH_EXPIRES cfg |}.
Proof.
  intros Hjwt. do 2 eexists.
  split; [apply generate_token_pair_eq|]. split; [reflexivity|].
  cbv zeta. unfold minted. cbn [access_token refresh_token].
  rewrite !Hjwt. unfold payload_of. cbn [sub exp].
  rewrite !timegm_add_seconds. split; reflexivity.
Qed.

End Minting.

Lemma token_pair_subject_and_instant_witness :
  exists tp w',
    @AuthService.generate_token_pair Sample.jose Sample.dev_config 42 Sample.empty_world
      = (inr tp, w') /\
    utc_reads w' = 1%nat /\
    @jwt_decode Sample.jose (AuthService.access_token tp) "dev_secret" "HS256"
      = Some {| p_sub := "42"; p_exp := 1700000000 + 3600 |} /\
    @jwt_decode Sample.jose (AuthService.refresh_token tp) "dev_refresh" "HS256"
      = Some {| p_sub := "42"; p_exp := 1700000000 + 86400 |}.
Proof.
  exact (@token_pair_subject_and_instant Sample.jose Sample.dev_config 42
           Sample.empty_world sample_decode_encode).
Defined.

(** ** Configuration *)

Lemma load_config_fields (env : Os.environ) (cfg : AuthService.Config) :
  AuthService.load_config env = Some cfg ->
  AuthService.ACCESS_SECRET cfg = Os.getenv env "ACCESS_TOKEN_SECRET" "dev_secret" /\
  AuthService.REFRESH_SECRET cfg = Os.getenv env "REFRESH_TOKEN_SECRET" "dev_refresh" /\
  Py.int (Os.getenv env "ACCESS_TOKEN_EXPIRES" "3600")
    = Some (AuthService.ACCESS_EXPIRES cfg) /\
  Py.int (Os.getenv env "REFRESH_TOKEN_EXPIRES" "86400")
    = Some (AuthService.REFRESH_EXPIRES cfg).
Proof.
  unfold AuthService.load_config.
  destruct (Py.int (Os.getenv env "ACCESS_TOKEN_EXPIRES" "3600")) as [a|]; [|discriminate].
  destruct (Py.int (Os.getenv env "REFRESH_TOKEN_EXPIRES" "86400")) as [r|]; [|discriminate].
  intros [= <-]. repeat split.
Qed.

Lemma getenv_absent (env : Os.environ) (key default : string) :
  env !! key = None -> Os.getenv env key default = default.
Proof. unfold Os.getenv. now intros ->. Qed.

Lemma getenv_same (env env' : Os.environ) (key default : string) :
  env !! key = env' !! key -> Os.getenv env key default = Os.getenv env' key default.
Proof. unfold Os.getenv. now intros ->. Qed.

Lemma int_default_access : Py.int "3600" = Some 3600.
Proof. vm_compute. reflexivity. Qed.

Lemma int_default_refresh : Py.int "86400" = Some 86400.
Proof. vm_compute. reflexivity. Qed.

(** C9 (as the code has it). The token configuration is read from the
    environment variables ACCESS_TOKEN_SECRET, REFRESH_TOKEN_SECRET,
    ACCESS_TOKEN_EXPIRES and REFRESH_TOKEN_EXPIRES and from nothing else;
    each value is the variable's when it is set; an absent
    ACCESS_TOKEN_EXPIRES gives an access TTL of 3600 seconds and an absent
    REFRESH_TOKEN_EXPIRES a refresh TTL of 86400 seconds, and with both
    absent the configuration always loads. *)
Theorem token_configuration (env : Os.environ) :
  (forall env', Statements.same_token_options env env' ->
     AuthService.load_config env' = AuthService.load_config env) /\
  (forall cfg, AuthService.load_config env = Some cfg ->
     AuthService.ACCESS_SECRET cfg = Os.getenv env "ACCESS_TOKEN_SECRET" "dev_secret" /\
     AuthService.REFRESH_SECRET cfg = Os.getenv env "REFRESH_TOKEN_SECRET" "dev_refresh" /\
     (forall raw, env !! "ACCESS_TOKEN_EXPIRES" = Some raw ->
        Py.int raw = Some (AuthService.ACCESS_EXPIRES cfg)) /\
     (forall raw, env !! "REFRESH_TOKEN_EXPIRES" = Some raw ->
        Py.int raw = Some (AuthService.REFRESH_EXPIRES cfg)) /\
     (env !! "ACCESS_TOKEN_EXPIRES" = None -> AuthService.ACCESS_EXPIRES cfg = 3600) /\
     (env !! "REFRESH_TOKEN_EXPIRES" = None -> AuthService.REFRESH_EXPIRES cfg = 86400)) /\
  (env !! "ACCESS_TOKEN_EXPIRES" = None ->
   env !! "REFRESH_TOKEN_EXPIRES" = None ->
   exists cfg, AuthService.load_config env = Some cfg /\
     AuthService.ACCESS_EXPIRES cfg = 3600 /\ AuthService.REFRESH_EXPIRES cfg = 86400).
Proof.
  split; [|split].
  - intros env' (Has & Hrs & Hae & Hre). unfold AuthService.load_config.
    rewrite (getenv_same env env' "ACCESS_TOKEN_SECRET" _ Has),
            (getenv_same env env' "REFRESH_TOKEN_SECRET" _ Hrs),
            (getenv_same env env' "ACCESS_TOKEN_EXPIRES" _ Hae),
            (getenv_same env env' "REFRESH_TOKEN_EXPIRES" _ Hre).
    reflexivity.
  - intros cfg Hcfg.
    destruct (load_config_fields env cfg Hcfg) as (Ha & Hr & Hae & Hre).
    repeat split; try assumption.
    + intros raw Hraw. unfold Os.getenv in Hae. now rewrite Hraw in Hae.
    + intros raw Hraw. unfold Os.getenv in Hre. now rewrite Hraw in Hre.
    + intros Habs. rewrite (getenv_absent _ _ _ Habs), int_default_access in Hae.
      congruence.
    + intros Habs. rewrite (getenv_absent _ _ _ Habs), int_default_refresh in Hre.
      congruence.
  - intros Ha Hr. unfold AuthService.load_config.
    rewrite (getenv_absent _ _ _ Ha), (getenv_absent _ _ _ Hr).
    rewrite int_default_access, int_default_refresh.
    eexists. split; [reflexivity|]. split; reflexivity.
Qed.

(** C9 (as stated) fails: with the TTL options set under the names the
    specification lists, in lower and in upper case, the specification's
    reading yields TTLs of 60 and 120 seconds while the module still has
    3600 and 86400. *)
Lemma ttl_seconds_options_not_read :
  Sample.ttl_seconds_env !! "access_token_ttl_seconds" = Some "60" /\
  Sample.ttl_seconds_env !! "ACCESS_TOKEN_TTL_SECONDS" = Some "60" /\
  Sample.ttl_seconds_env !! "refresh_token_ttl_seconds" = Some "120" /\
  Sample.ttl_seconds_env !! "REFRESH_TOKEN_TTL_SECONDS" = Some "120" /\
  Statements.spec_load_config Sample.ttl_seconds_env
    = Some (AuthService.mkConfig "dev_secret" "dev_refresh" 60 120) /\
  AuthService.load_config Sample.ttl_seconds_env
    = Some (AuthService.mkConfig "dev_secret" "dev_refresh" 3600 86400) /\
  AuthService.load_config Sample.expires_env
    = Some (AuthService.mkConfig "dev_secret" "dev_refresh" 60 120).
Proof. repeat split; vm_compute; reflexivity. Qed.

Section MintingSecrets.
Import AuthService Statements.
Context `{Jose}.


End MintingSecrets.



(** ** What a failed login or registration tells *)

Lemma user_record_password_hash (n h f l : Py.str) :
  Statements.user_record n h f l !! "password_hash" = Some h.
Proof. reflexivity. Qed.

Lemma user_record_fields (n h f l : Py.str) :
  Statements.user_record n h f l !! "user_name" = Some n /\
  Statements.user_record n h f l !! "first_name" = Some f /\
  Statements.user_record n h f l !! "last_name" = Some l.
Proof. repeat split. Qed.

Lemma user_record_dom (n h f l : Py.str) :
  dom (Statements.user_record n h f l)
  = ({[ "user_name"; "password_hash"; "first_name"; "last_name" ]} : gset string).
Proof.
  unfold Statements.user_record. rewrite !dom_insert_L, dom_empty_L. set_solver.
Qed.

Section Disclosure.
Import AuthService UserRepository Statements.
Context `{Bcrypt} `{Jose}.
Variable cfg : Config.

(** C7 (as the code has it). A login whose password verifies against no
    stored hash of that username fails with a [ValueError]; its message is
    "Wrong password" when the username is registered and "User not found"
    when it is not. *)
Theorem login_wrong_password (dto : gmap string Py.str) (w : World)
    (user_name password : Py.str) :
  dto !! "user_name" = Some user_name ->
  dto !! "password" = Some password ->
  (forall user, find_user user_name (users w) = Some user ->
     checkpw (Py.encode password) (Py.encode (u_password_hash user)) = inr false) ->
  fst (login cfg dto w) =
    inl (Py.ValueError
           (match find_user user_name (users w) with
            | Some _ => "Wrong password"
            | None => "User not found"
            end)).
Proof.
  intros Hname Hpw Hwrong.
  rewrite (login_eq cfg dto w user_name password Hname Hpw). cbv zeta.
  destruct (find_user user_name (users w)) as [user|]; [|reflexivity].
  now rewrite (Hwrong user eq_refl).
Qed.

(** Every failure of [login] is one of four fixed exceptions or what
    [checkpw] raised. *)
Lemma login_fails_with (dto : gmap string Py.str) (w : World) (e : Py.exn) :
  fst (login cfg dto w) = inl e ->
  In e login_errors \/
  exists password hashed, dto !! "password" = Some password /\
    checkpw (Py.encode password) hashed = inl e.
Proof.
  unfold login, Py.getitem.
  destruct (dto !! "user_name") as [user_name|] eqn:Hname.
  - unfold Py.bind at 1. unfold Py.ret at 1.
    unfold Py.bind at 1. unfold get_user_by_username.
    destruct (find_user user_name _) as [user|].
    + destruct (dto !! "password") as [password|].
      * unfold Py.bind at 1. unfold Py.ret at 1.
        unfold Py.bind at 1. unfold Py.call.
        destruct (checkpw _ _) as [raised|[|]] eqn:Hcheck; cbn [negb].
        -- intros [= <-]. right. eauto.
        -- rewrite generate_token_pair_eq. discriminate.
        -- intros [= <-]. left. cbn. tauto.
      * intros [= <-]. left. cbn. tauto.
    + intros [= <-]. left. cbn. tauto.
  - intros [= <-]. left. cbn. tauto.
Qed.

(** What [register] does on any request: it stops before the repository
    is called, with the [KeyError] of a missing field or with what [hashpw]
    raised, or the request is complete and [hashpw] returned. *)
Lemma register_cases (dto : gmap string Py.str) (w : World) :
  (exists e,
     fst (register cfg dto w) = inl e /\
     calls (snd (register cfg dto w)) = calls w /\
     (In e register_errors \/
      exists password salt, dto !! "password" = Some password /\
        hashpw (Py.encode password) salt = inl e)) \/
  (exists user_name password first_name last_name hashed,
     dto !! "password" = Some password /\
     dto !! "user_name" = Some user_name /\
     dto !! "first_name" = Some first_name /\
     dto !! "last_name" = Some last_name /\
     hashpw (Py.encode password) (salts w (salt_draws w)) = inr hashed).
Proof.
  destruct (dto !! "password") as [password|] eqn:Hpw.
  2:{ left. exists (Py.KeyError "password").
      unfold register, register_with, Py.getitem. rewrite Hpw. cbn. tauto. }
  destruct (hashpw (Py.encode password) (salts w (salt_draws w)))
    as [raised|hashed] eqn:Hhash.
  { left. exists raised.
    unfold register, register_with, Py.getitem, Py.bind, Py.call, gensalt.
    rewrite Hpw. cbn. rewrite Hhash. cbn.
    split; [reflexivity|]. split; [reflexivity|]. right. eauto. }
  destruct (dto !! "user_name") as [user_name|] eqn:Hname.
  2:{ left. exists (Py.KeyError "user_name").
      unfold register, register_with, Py.getitem, Py.bind, Py.call, gensalt.
      rewrite Hpw, Hname. cbn. rewrite Hhash. cbn. tauto. }
  destruct (dto !! "first_name") as [first_name|] eqn:Hfirst.
  2:{ left. exists (Py.KeyError "first_name").
      unfold register, register_with, Py.getitem, Py.bind, Py.call, gensalt.
      rewrite Hpw, Hname, Hfirst. cbn. rewrite Hhash. cbn. tauto. }
  destruct (dto !! "last_name") as [last_name|] eqn:Hlast.
  2:{ left. exists (Py.KeyError "last_name").
      unfold register, register_with, Py.getitem, Py.bind, Py.call, gensalt.
      rewrite Hpw, Hname, Hfirst, Hlast. cbn. rewrite Hhash. cbn. tauto. }
  right. exists user_name, password, first_name, last_name, hashed. tauto.
Qed.

(** C10. Let [raised] list what [bcrypt] can raise.  On a complete request
    whose password [hashpw] accepts, [register] passes one record to the
    store: its password_hash entry is the decoded [hashpw] of the password
    under the salt drawn, its user_name, first_name and last_name entries
    are the request's, and it has no other entry, none for the password
    itself; and whatever the request, nothing but such a record is ever
    passed.  Every failure of [register] and of [login] is one of a fixed
    list of exceptions, whose messages are literals of the code or the name
    of a missing field, or one of [raised]: never built from the
    password. *)
Theorem password_only_hashed (raised : list Py.exn)
    (dto : gmap string Py.str) (w : World) :
  bcrypt_raises raised ->
  (forall user_name password first_name last_name hashed,
     dto !! "password" = Some password ->
     dto !! "user_name" = Some user_name ->
     dto !! "first_name" = Some first_name ->
     dto !! "last_name" = Some last_name ->
     hashpw (Py.encode password) (salts w (salt_draws w)) = inr hashed ->
     exists user_data,
       calls (snd (register cfg dto w)) = (calls w ++ [CreateUser user_data])%list /\
       user_data !! "password_hash" = Some (Py.decode hashed) /\
       user_data !! "user_name" = Some user_name /\
       user_data !! "first_name" = Some first_name /\
       user_data !! "last_name" = Some last_name /\
       user_data !! "password" = None /\
       dom user_data
         = ({[ "user_name"; "password_hash"; "first_name"; "last_name" ]} : gset string)) /\
  (forall user_data,
     In (CreateUser user_data) (calls (snd (register cfg dto w))) ->
     In (CreateUser user_data) (calls w) \/
     exists password hashed,
       dto !! "password" = Some password /\
       hashpw (Py.encode password) (salts w (salt_draws w)) = inr hashed /\
       user_data !! "password_hash" = Some (Py.decode hashed) /\
       user_data !! "user_name" = dto !! "user_name" /\
       user_data !! "first_name" = dto !! "first_name" /\
       user_data !! "last_name" = dto !! "last_name" /\
       user_data !! "password" = None /\
       dom user_data
         = ({[ "user_name"; "password_hash"; "first_name"; "last_name" ]} : gset string)) /\
  (forall e, fst (register cfg dto w) = inl e -> In e (register_errors ++ raised)) /\
  (forall e, fst (login cfg dto w) = inl e -> In e (login_errors ++ raised)).
Proof.
  intros [Hraise_hash Hraise_check].
  assert (Hcalls : forall user_name password first_name last_name hashed,
            dto !! "password" = Some password ->
            dto !! "user_name" = Some user_name ->
            dto !! "first_name" = Some first_name ->
            dto !! "last_name" = Some last_name ->
            hashpw (Py.encode password) (salts w (salt_draws w)) = inr hashed ->
            calls (snd (register cfg dto w))
            = (calls w ++ [CreateUser (user_record user_name (Py.decode hashed)
                                         first_name last_name)])%list).
  { intros user_name password first_name last_name hashed Hpw Hname Hfirst Hlast Hh.
    rewrite (register_result cfg dto w user_name password first_name last_name
               Hpw Hname Hfirst Hlast).
    rewrite Hh. cbv zeta. destruct (find_user user_name (users w)); reflexivity. }
  split; [|split; [|split]].
  - intros user_name password first_name last_name hashed Hpw Hname Hfirst Hlast Hh.
    eexists. split; [exact (Hcalls _ _ _ _ _ Hpw Hname Hfirst Hlast Hh)|].
    split; [apply user_record_password_hash|].
    split; [reflexivity|]. split; [reflexivity|]. split; [reflexivity|].
    split; [reflexivity | apply user_record_dom].
  - intros user_data Hin.
    destruct (register_cases dto w) as [(e & _ & Hsame & _)|Hfields].
    + left. now rewrite Hsame in Hin.
    + destruct Hfields as (user_name & password & first_name & last_name & hashed
                           & Hpw & Hname & Hfirst & Hlast & Hh).
      rewrite (Hcalls _ _ _ _ _ Hpw Hname Hfirst Hlast Hh) in Hin.
      apply in_app_or in Hin.
      destruct Hin as [Hin|[[= <-]|[]]]; [left; exact Hin|].
      right. exists password, hashed. rewrite Hname, Hfirst, Hlast.
      split; [exact Hpw|]. split; [exact Hh|].
      split; [apply user_record_password_hash|].
      split; [reflexivity|]. split; [reflexivity|]. split; [reflexivity|].
      split; [reflexivity | apply user_record_dom].
  - intros e He. apply in_or_app.
    destruct (register_cases dto w) as [(e' & Hfail & _ & Hwhich)|Hfields].
    + rewrite Hfail in He. injection He as <-.
      destruct Hwhich as [Hin|(password & salt & _ & Hh)]; [now left|].
      right. exact (Hraise_hash _ _ _ Hh).
    + destruct Hfields as (user_name & password & first_name & last_name & hashed
                           & Hpw & Hname & Hfirst & Hlast & Hh).
      rewrite (register_result cfg dto w user_name password first_name last_name
                 Hpw Hname Hfirst Hlast) in He.
      rewrite Hh in He. cbv zeta in He.
      destruct (find_user user_name (users w)).
      * injection He as <-. left. cbn. tauto.
      * discriminate.
  - intros e He. apply in_or_app.
    destruct (login_fails_with dto w e He) as [Hin|(password & hashed & _ & Hc)];
      [now left|].
    right. exact (Hraise_check _ _ _ Hc).
Qed.

End Disclosure.

Lemma login_wrong_password_witness :
  fst (@AuthService.login Sample.bcrypt Sample.jose Sample.dev_config
         (Sample.credentials "alice" "guess") Sample.alice_world)
  = inl (Py.ValueError "Wrong password").
Proof.
  apply (@login_wrong_password Sample.bcrypt Sample.jose Sample.dev_config
           (Sample.credentials "alice" "guess") Sample.alice_world
           "alice" "guess" eq_refl eq_refl).
  intros user Huser. injection Huser as <-. reflexivity.
Defined.

(** C7 (as stated) fails: with the same wrong password, the failure for a
    registered username and the failure for an unregistered one carry
    different messages. *)
Lemma login_message_tells_registered :
  UserRepository.find_user "alice" (users Sample.alice_world) = Some Sample.alice /\
  UserRepository.find_user "bob" (users Sample.alice_world) = None /\
  @checkpw Sample.bcrypt (Py.encode "guess")
    (Py.encode (u_password_hash Sample.alice)) = inr false /\
  fst (@AuthService.login Sample.bcrypt Sample.jose Sample.dev_config
         (Sample.credentials "alice" "guess") Sample.alice_world)
    = inl (Py.ValueError "Wrong password") /\
  fst (@AuthService.login Sample.bcrypt Sample.jose Sample.dev_config
         (Sample.credentials "bob" "guess") Sample.alice_world)
    = inl (Py.ValueError "User not found") /\
  Py.ValueError "Wrong password" <> Py.ValueError "User not found".
Proof. repeat split; try reflexivity. discriminate. Qed.

Lemma password_only_hashed_witness :
  exists user_data,
    calls (snd (@AuthService.register Sample.bcrypt Sample.jose Sample.dev_config
                  (Sample.registration "bob" "hunter2" "Bob" "Builder")
                  Sample.alice_world))
      = [CreateUser user_data] /\
    user_data !! "password_hash" = Some "$hunter2" /\
    user_data !! "user_name" = Some "bob" /\
    user_data !! "first_name" = Some "Bob" /\
    user_data !! "last_name" = Some "Builder" /\
    user_data !! "password" = None /\
    dom user_data
      = ({[ "user_name"; "password_hash"; "first_name"; "last_name" ]} : gset string).
Proof.
  destruct (@password_only_hashed Sample.bcrypt Sample.jose Sample.dev_config
              [Sample.too_long; Sample.invalid_salt]
              (Sample.registration "bob" "hunter2" "Bob" "Builder")
              Sample.alice_world sample_bcrypt_raises) as (Hpassed & _).
  exact (Hpassed "bob" "hunter2" "Bob" "Builder" (Py.encode "$hunter2")
           eq_refl eq_refl eq_refl eq_refl eq_refl).
Defined.

(** ** The post controller *)

Section Listing.
Import PostController Statements.
Context {S R : Type}.
Variable int_of_query : Py.str -> option Z.
Variable get_all_posts : gmap string Py.val -> Py.M S R.

(** What the framework makes of one integer query parameter. *)
Lemma Query_int_rejects (name : Py.str) (default : option Z) (ge : Z)
    (query : gmap string Py.str) :
  Query_int int_of_query name default ge query = None <->
  out_of_range int_of_query query name ge.
Proof.
  unfold Query_int, out_of_range. split.
  - destruct (query !! name) as [raw|]; [|discriminate].
    intros Hrej. exists raw. split; [reflexivity|]. intros n Hn.
    rewrite Hn in Hrej. destruct (Z.leb_spec ge n); [discriminate | lia].
  - intros (raw & -> & Hlow).
    destruct (int_of_query raw) as [n|]; [|reflexivity].
    specialize (Hlow n eq_refl).
    destruct (Z.leb_spec ge n); [lia | reflexivity].
Qed.

Lemma Query_int_accepts (name : Py.str) (default : option Z) (ge : Z)
    (query : gmap string Py.str) (v : option Z) :
  Query_int int_of_query name default ge query = Some v ->
  (query !! name = None -> v = default) /\
  (forall raw, query !! name = Some raw ->
     exists n, int_of_query raw = Some n /\ ge <= n /\ v = Some n).
Proof.
  unfold Query_int.
  destruct (query !! name) as [raw|].
  - destruct (int_of_query raw) as [n|] eqn:Hn; [|discriminate].
    destruct (Z.leb_spec ge n); [|discriminate].
    intros [= <-]. split; [discriminate|].
    intros raw' [= <-]. exists n. repeat split; assumption || reflexivity.
  - intros [= <-]. split; [reflexivity | discriminate].
Qed.

Lemma Query_int_same (name : Py.str) (default : option Z) (ge : Z)
    (query query' : gmap string Py.str) :
  query' !! name = query !! name ->
  Query_int int_of_query name default ge query'
  = Query_int int_of_query name default ge query.
Proof. unfold Query_int. now intros ->. Qed.

(** C8. The listing handler either rejects the request before the
    service is called, which happens exactly when limit is not an integer
    [>= 1], offset not an integer [>= 0], or reply_to_id or owner_id not an
    integer [>= 1]; or it calls the service with a filter whose limit is
    the supplied one, at least 1, and 100 when absent, whose offset is the
    supplied one, at least 0, and 0 when absent, whose reply_to_id,
    owner_id and search are the supplied ones or None, and whose user_id
    is the authenticated user's [sub].  The request's query string
    matters only through those five parameters. *)
Theorem get_all_posts_handler_filter (query : gmap string Py.str)
    (user : Auth.CurrentUser) (s : S) :
  let response := get_all_posts_handler int_of_query get_all_posts query user s in
  let bad name ge := out_of_range int_of_query query name ge in
  (((bad "limit" 1 \/ bad "offset" 0 \/ bad "reply_to_id" 1 \/ bad "owner_id" 1) /\
   exists params, response = (RequestValidationError params, s) /\
     (In "limit" params <-> bad "limit" 1) /\
     (In "offset" params <-> bad "offset" 0) /\
     (In "reply_to_id" params <-> bad "reply_to_id" 1) /\
     (In "owner_id" params <-> bad "owner_id" 1) /\
     ~ In "search" params)
  \/
  (~ (bad "limit" 1 \/ bad "offset" 0 \/ bad "reply_to_id" 1 \/ bad "owner_id" 1) /\
   exists limit offset reply_to_id owner_id,
     response =
       try_or_http HTTP_400_BAD_REQUEST
         (get_all_posts
            (model_dump
               {| f_user_id := Auth.sub user;
                  f_limit := Some limit;
                  f_offset := Some offset;
                  f_reply_to_id := reply_to_id;
                  f_owner_id := owner_id;
                  f_search := query !! "search" |})) s /\
     1 <= limit /\
     (query !! "limit" = None -> limit = 100) /\
     (forall raw, query !! "limit" = Some raw -> int_of_query raw = Some limit) /\
     0 <= offset /\
     (query !! "offset" = None -> offset = 0) /\
     (forall raw, query !! "offset" = Some raw -> int_of_query raw = Some offset) /\
     (query !! "reply_to_id" = None -> reply_to_id = None) /\
     (forall raw, query !! "reply_to_id" = Some raw ->
        exists n, int_of_query raw = Some n /\ 1 <= n /\ reply_to_id = Some n) /\
     (query !! "owner_id" = None -> owner_id = None) /\
     (forall raw, query !! "owner_id" = Some raw ->
        exists n, int_of_query raw = Some n /\ 1 <= n /\ owner_id = Some n)))
  /\
  (forall query', same_declared_parameters query query' ->
     get_all_posts_handler int_of_query get_all_posts query' user s = response).
Proof.
  cbv zeta. split.
  - unfold get_all_posts_handler. cbv zeta.
    pose proof (Query_int_rejects "limit" (Some 100) 1 query) as Hl.
    pose proof (Query_int_rejects "offset" (Some 0) 0 query) as Ho.
    pose proof (Query_int_rejects "reply_to_id" None 1 query) as Hr.
    pose proof (Query_int_rejects "owner_id" None 1 query) as Hw.
    pose proof (Query_int_accepts "limit" (Some 100) 1 query) as Hla.
    pose proof (Query_int_accepts "offset" (Some 0) 0 query) as Hoa.
    pose proof (Query_int_accepts "reply_to_id" None 1 query) as Hra.
    pose proof (Query_int_accepts "owner_id" None 1 query) as Hwa.
    destruct (Query_int int_of_query "limit" (Some 100) 1 query) as [limit|];
      destruct (Query_int int_of_query "offset" (Some 0) 0 query) as [offset|];
      destruct (Query_int int_of_query "reply_to_id" None 1 query) as [reply|];
      destruct (Query_int int_of_query "owner_id" None 1 query) as [owner|];
      unfold Query_str.
    2-16: left; split;
      [ first [ left; apply Hl; reflexivity
              | right; left; apply Ho; reflexivity
              | right; right; left; apply Hr; reflexivity
              | right; right; right; apply Hw; reflexivity ]
      | eexists; split; [reflexivity|];
        rewrite <- Hl, <- Ho, <- Hr, <- Hw; cbn;
        repeat split; intros; try discriminate; try reflexivity;
        intuition (try discriminate; auto) ].
    right. split.
    { rewrite <- Hl, <- Ho, <- Hr, <- Hw. intuition discriminate. }
    destruct (Hla limit eq_refl) as (Hl1 & Hl2).
    destruct (Hoa offset eq_refl) as (Ho1 & Ho2).
    destruct (Hra reply eq_refl) as (Hr1 & Hr2).
    destruct (Hwa owner eq_refl) as (Hw1 & Hw2).
    assert (Hlim : exists n, limit = Some n /\ 1 <= n /\
              (query !! "limit" = None -> n = 100) /\
              (forall raw, query !! "limit" = Some raw -> int_of_query raw = Some n)).
    { destruct (query !! "limit") as [raw|] eqn:Hq.
      - destruct (Hl2 raw eq_refl) as (n & Hn & Hge & ->).
        exists n. repeat split; [exact Hge | discriminate |].
        intros raw' [= <-]. exact Hn.
      - rewrite (Hl1 eq_refl). exists 100. repeat split; [lia | discriminate]. }
    assert (Hoff : exists n, offset = Some n /\ 0 <= n /\
              (query !! "offset" = None -> n = 0) /\
              (forall raw, query !! "offset" = Some raw -> int_of_query raw = Some n)).
    { destruct (query !! "offset") as [raw|] eqn:Hq.
      - destruct (Ho2 raw eq_refl) as (n & Hn & Hge & ->).
        exists n. repeat split; [exact Hge | discriminate |].
        intros raw' [= <-]. exact Hn.
      - rewrite (Ho1 eq_refl). exists 0. repeat split; [lia | discriminate]. }
    destruct Hlim as (l & -> & Hlge & Hlabs & Hlraw).
    destruct Hoff as (o & -> & Hoge & Hoabs & Horaw).
    exists l, o, reply, owner.
    split; [reflexivity|]. tauto.
  - intros query' Hsame. unfold get_all_posts_handler, Query_str.
    rewrite (Query_int_same "limit" _ _ query query'),
            (Query_int_same "offset" _ _ query query'),
            (Query_int_same "reply_to_id" _ _ query query'),
            (Query_int_same "owner_id" _ _ query query'),
            (Hsame "search");
      try (apply Hsame); cbn; tauto.
Qed.

End Listing.

(** A request that supplies a [user_id] of its own is served for the
    authenticated user all the same. *)
Example forged_user_id_ignored :
  fst (PostController.get_all_posts_handler Py.int Sample.echo_posts
         Sample.forged_query Sample.viewer tt)
  = Returned
      (PostController.model_dump
         (PostController.mkPostFilterDTO 7 (Some 5) (Some 0) None None (Some "gopher"))).
Proof. vm_compute. reflexivity. Qed.

Section Liking.
Import PostService PostController.

(** One call of the like handler on an existing post. *)
Lemma like_post_handler_eq (s : PostStore) (post_id : Z)
    (user : Auth.CurrentUser) (p : Post) :
  0 < post_id ->
  posts s !! post_id = Some p ->
  like_post_handler post_id user s =
    if decide ((post_id, Auth.sub user) ∈ like_edges s)
    then (Returned tt, s)
    else (Returned tt,
          {| posts := alter add_like post_id (posts s);
             like_edges := {[ (post_id, Auth.sub user) ]} ∪ like_edges s |}).
Proof.
  intros Hpos Hpost. unfold like_post_handler.
  destruct (Z.ltb_spec 0 post_id); [|lia].
  unfold try_or_http, like_post, Py.bind, find_post.
  rewrite Hpost. unfold upsert_like_edge.
  destruct (decide ((post_id, Auth.sub user) ∈ like_edges s)); reflexivity.
Qed.

(** C6 (as the service has it). On an existing post, two calls of
    likePost in succession both succeed, the second changes nothing, the
    (post, viewer) relation ends in state Liked, and like_count ends one
    above its value before the first call when the viewer did not like
    the post then, and at that value when the viewer already did. *)
Theorem like_twice (s : PostStore) (post_id : Z) (user : Auth.CurrentUser)
    (p : Post) :
  0 < post_id ->
  posts s !! post_id = Some p ->
  let first := like_post_handler post_id user s in
  let second := like_post_handler post_id user (snd first) in
  fst first = Returned tt /\
  fst second = Returned tt /\
  snd second = snd first /\
  like_state (snd second) post_id (Auth.sub user) = Liked /\
  like_count_of (snd second) post_id =
    Some (like_count p +
          match like_state s post_id (Auth.sub user) with
          | NotLiked => 1
          | Liked => 0
          end).
Proof.
  intros Hpos Hpost. cbv zeta.
  rewrite (like_post_handler_eq s post_id user p Hpos Hpost).
  unfold like_state at 2.
  destruct (decide ((post_id, Auth.sub user) ∈ like_edges s)) as [Hin|Hout].
  - cbn [fst snd].
    rewrite (like_post_handler_eq s post_id user p Hpos Hpost).
    destruct (decide ((post_id, Auth.sub user) ∈ like_edges s)); [|contradiction].
    cbn [fst snd]. repeat split.
    + unfold like_state. now destruct (decide _).
    + unfold like_count_of. rewrite Hpost. cbn. f_equal. lia.
  - cbn [fst snd].
    set (s1 := {| posts := alter add_like post_id (posts s);
                  like_edges := {[ (post_id, Auth.sub user) ]} ∪ like_edges s |}).
    assert (Hpost1 : posts s1 !! post_id = Some (add_like p)).
    { subst s1. cbn [posts]. now rewrite lookup_alter_eq, Hpost. }
    assert (Hin1 : (post_id, Auth.sub user) ∈ like_edges s1).
    { subst s1. cbn [like_edges]. set_solver. }
    rewrite (like_post_handler_eq s1 post_id user (add_like p) Hpos Hpost1).
    destruct (decide ((post_id, Auth.sub user) ∈ like_edges s1)); [|contradiction].
    cbn [fst snd]. repeat split.
    + unfold like_state. now destruct (decide _).
    + unfold like_count_of. rewrite Hpost1. reflexivity.
Qed.

End Liking.

Lemma like_twice_witness :
  like_state
    (snd (PostController.like_post_handler 1 Sample.viewer
            (snd (PostController.like_post_handler 1 Sample.viewer Sample.fresh_store))))
    1 7 = Liked /\
  like_count_of
    (snd (PostController.like_post_handler 1 Sample.viewer
            (snd (PostController.like_post_handler 1 Sample.viewer Sample.fresh_store))))
    1 = Some (5 + 1).
Proof.
  destruct (like_twice Sample.fresh_store 1 Sample.viewer Sample.hello
              eq_refl eq_refl) as (_ & _ & _ & Hstate & Hcount).
  split; [exact Hstate | exact Hcount].
Defined.

(** C6 (as stated) fails for a viewer who already likes the post: both
    calls succeed and like_count is what it was before the first call, not
    one more. *)
Lemma like_twice_when_already_liked :
  like_state Sample.liked_store 1 7 = Liked /\
  like_count_of Sample.liked_store 1 = Some 5 /\
  fst (PostController.like_post_handler 1 Sample.viewer Sample.liked_store)
    = Returned tt /\
  fst (PostController.like_post_handler 1 Sample.viewer
         (snd (PostController.like_post_handler 1 Sample.viewer Sample.liked_store)))
    = Returned tt /\
  like_count_of
    (snd (PostController.like_post_handler 1 Sample.viewer
            (snd (PostController.like_post_handler 1 Sample.viewer Sample.liked_store))))
    1 = Some 5.
Proof. repeat split; vm_compute; reflexivity. Qed.

(** * Further properties of the authentication service *)

Lemma find_user_app_other (name : Py.str) (us : list User) (u : User) :
  u_user_name u <> name ->
  UserRepository.find_user name (us ++ [u]) = UserRepository.find_user name us.
Proof.
  unfold UserRepository.find_user. intros Hne.
  induction us as [|v us IH]; simpl.
  - destruct (String.eqb_spec (u_user_name u) name); [contradiction | reflexivity].
  - destruct (String.eqb (u_user_name v) name); [reflexivity | exact IH].
Qed.

Section AuthEffects.
Import AuthService UserRepository Statements.
Context `{Bcrypt} `{Jose}.
Variable cfg : Config.

(** [login] on a request that names a user, whatever else it carries. *)
Lemma login_named (dto : gmap string Py.str) (w : World) (user_name : Py.str) :
  dto !! "user_name" = Some user_name ->
  login cfg dto w =
    let w1 := record_call (GetUserByUsername user_name) w in
    match find_user user_name (users w) with
    | None => (inl (Py.ValueError "User not found"), w1)
    | Some user =>
        match dto !! "password" with
        | None => (inl (Py.KeyError "password"), w1)
        | Some password =>
            match checkpw (Py.encode password) (Py.encode (u_password_hash user)) with
            | inl e => (inl e, w1)
            | inr true => generate_token_pair cfg (u_id user) w1
            | inr false => (inl (Py.ValueError "Wrong password"), w1)
            end
        end
    end.
Proof.
  intros Hname.
  unfold login, Py.getitem, Py.bind, get_user_by_username.
  rewrite Hname. unfold Py.ret at 1.
  change (users (record_call (GetUserByUsername user_name) w)) with (users w).
  cbv zeta.
  destruct (find_user user_name (users w)) as [user|]; [|reflexivity].
  destruct (dto !! "password") as [password|]; [|reflexivity].
  unfold Py.ret at 1. unfold Py.call.
  destruct (checkpw _ _) as [e|[|]]; reflexivity.
Qed.

Lemma login_unnamed (dto : gmap string Py.str) (w : World) :
  dto !! "user_name" = None ->
  login cfg dto w = (inl (Py.KeyError "user_name"), w).
Proof.
  intros Hname. unfold login, Py.getitem. rewrite Hname. reflexivity.
Qed.

(** X1. [login] never writes: whatever the request and its outcome, the
    users table, the id sequence and the salt generator are as before; the
    only call on the repository is one lookup of the requested username
    (none when the request has no username); and the clock is read once
    when [login] succeeds and not at all when it fails. *)
Theorem login_read_only (dto : gmap string Py.str) (w : World) :
  let result := login cfg dto w in
  users (snd result) = users w /\
  next_id (snd result) = next_id w /\
  salt_draws (snd result) = salt_draws w /\
  calls (snd result) =
    (calls w ++ match dto !! "user_name" with
                | Some user_name => [GetUserByUsername user_name]
                | None => []
                end)%list /\
  utc_reads (snd result) =
    match fst result with
    | inr _ => S (utc_reads w)
    | inl _ => utc_reads w
    end.
Proof.
  cbv zeta.
  destruct (dto !! "user_name") as [user_name|] eqn:Hname.
  - rewrite (login_named dto w user_name Hname). cbv zeta.
    destruct (find_user user_name (users w)) as [user|]; [|repeat split].
    destruct (dto !! "password") as [password|]; [|repeat split].
    destruct (checkpw _ _) as [e|[|]]; [repeat split| |repeat split].
    rewrite generate_token_pair_eq. repeat split.
  - rewrite (login_unnamed dto w Hname). cbn [fst snd].
    rewrite app_nil_r. repeat split.
Qed.

(** X2. Missing fields in a login request: without [user_name], [login]
    raises [KeyError('user_name')] before anything is looked up; without
    [password], it raises [KeyError('password')] only when the username is
    registered, and "User not found" otherwise, since the password is read
    after the lookup. *)
Theorem login_missing_fields (dto : gmap string Py.str) (w : World) :
  (dto !! "user_name" = None ->
     login cfg dto w = (inl (Py.KeyError "user_name"), w)) /\
  (forall user_name,
     dto !! "user_name" = Some user_name ->
     dto !! "password" = None ->
     fst (login cfg dto w) =
       inl (match find_user user_name (users w) with
            | Some _ => Py.KeyError "password"
            | None => Py.ValueError "User not found"
            end)).
Proof.
  split.
  - apply login_unnamed.
  - intros user_name Hname Hpw.
    rewrite (login_named dto w user_name Hname). cbv zeta. rewrite Hpw.
    destruct (find_user user_name (users w)); reflexivity.
Qed.

(** X3. Missing fields in a registration request.  Without [password],
    [register] raises [KeyError('password')] and nothing has happened.
    With a password, a salt is drawn and the password is hashed before any
    other field is read: when [hashpw] raises, [register] fails with that
    exception whatever else is missing; when it returns, [register] raises
    the [KeyError] of the first missing field in the order user_name,
    first_name, last_name.  In none of these cases is the repository
    called. *)
Theorem register_missing_fields (dto : gmap string Py.str) (w : World) :
  (dto !! "password" = None ->
     register cfg dto w = (inl (Py.KeyError "password"), w)) /\
  (forall password, dto !! "password" = Some password ->
     (forall raised,
        hashpw (Py.encode password) (salts w (salt_draws w)) = inl raised ->
        register cfg dto w = (inl raised, snd (gensalt w))) /\
     (forall hashed,
        hashpw (Py.encode password) (salts w (salt_draws w)) = inr hashed ->
        (dto !! "user_name" = None ->
           register cfg dto w = (inl (Py.KeyError "user_name"), snd (gensalt w))) /\
        (forall user_name, dto !! "user_name" = Some user_name ->
           (dto !! "first_name" = None ->
              register cfg dto w
              = (inl (Py.KeyError "first_name"), snd (gensalt w))) /\
           (forall first_name, dto !! "first_name" = Some first_name ->
              dto !! "last_name" = None ->
              register cfg dto w
              = (inl (Py.KeyError "last_name"), snd (gensalt w)))))) /\
  calls (snd (gensalt w)) = calls w.
Proof.
  split; [|split; [|reflexivity]].
  - intros Hpw. unfold register, register_with, Py.getitem. rewrite Hpw. reflexivity.
  - intros password Hpw. split.
    + intros raised Hh.
      unfold register, register_with, Py.getitem, Py.bind, Py.call, gensalt.
      rewrite Hpw. cbn. now rewrite Hh.
    + intros hashed Hh. split.
      * intros Hname.
        unfold register, register_with, Py.getitem, Py.bind, Py.call, gensalt.
        rewrite Hpw, Hname. cbn. now rewrite Hh.
      * intros user_name Hname. split.
        -- intros Hfirst.
           unfold register, register_with, Py.getitem, Py.bind, Py.call, gensalt.
           rewrite Hpw, Hname, Hfirst. cbn. now rewrite Hh.
        -- intros first_name Hfirst Hlast.
           unfold register, register_with, Py.getitem, Py.bind, Py.call, gensalt.
           rewrite Hpw, Hname, Hfirst, Hlast. cbn. now rewrite Hh.
Qed.

(** X4. What a registration writes.  On a complete request [register]
    draws one salt; when it fails, the users table and the id sequence are
    as before and the clock was not read; when it succeeds, the table is
    the old one followed by one new row, which carries the next id, the
    three names of the request and the decoded hash [hashpw] returned for
    the password, and the clock was read once. *)
Theorem register_effects (dto : gmap string Py.str) (w : World)
    (user_name password first_name last_name : Py.str) :
  dto !! "password" = Some password ->
  dto !! "user_name" = Some user_name ->
  dto !! "first_name" = Some first_name ->
  dto !! "last_name" = Some last_name ->
  let result := register cfg dto w in
  salt_draws (snd result) = S (salt_draws w) /\
  (forall e, fst result = inl e ->
     users (snd result) = users w /\
     next_id (snd result) = next_id w /\
     utc_reads (snd result) = utc_reads w) /\
  (forall tp, fst result = inr tp ->
     exists hashed,
       hashpw (Py.encode password) (salts w (salt_draws w)) = inr hashed /\
       users (snd result) =
         (users w ++
          [ {| u_id := next_id w;
               u_user_name := user_name;
               u_password_hash := Py.decode hashed;
               u_first_name := first_name;
               u_last_name := last_name |} ])%list /\
       next_id (snd result) = next_id w + 1 /\
       utc_reads (snd result) = S (utc_reads w)).
Proof.
  intros Hpw Hname Hfirst Hlast. cbv zeta.
  rewrite (register_result cfg dto w user_name password first_name last_name
             Hpw Hname Hfirst Hlast).
  destruct (hashpw (Py.encode password) (salts w (salt_draws w))) as [raised|hashed].
  { cbn [fst snd]. split; [reflexivity|]. split; [|discriminate].
    intros e _. repeat split. }
  cbv zeta. destruct (find_user user_name (users w)).
  - cbn [fst snd]. split; [reflexivity|]. split; [|discriminate].
    intros e _. repeat split.
  - cbn [fst snd]. split; [reflexivity|]. split; [discriminate|].
    intros tp _. exists hashed. repeat split.
Qed.

(** After a [register] on a complete request that did not fail in
    [hashpw], the username is registered. *)
Lemma register_leaves_registered (dto : gmap string Py.str) (w : World)
    (user_name password first_name last_name : Py.str) (hashed : Py.bytes) :
  dto !! "password" = Some password ->
  dto !! "user_name" = Some user_name ->
  dto !! "first_name" = Some first_name ->
  dto !! "last_name" = Some last_name ->
  hashpw (Py.encode password) (salts w (salt_draws w)) = inr hashed ->
  exists user,
    find_user user_name (users (snd (register cfg dto w))) = Some user /\
    (forall old, find_user user_name (users w) = Some old -> user = old).
Proof.
  intros Hpw Hname Hfirst Hlast Hh.
  rewrite (register_result cfg dto w user_name password first_name last_name
             Hpw Hname Hfirst Hlast).
  rewrite Hh. cbv zeta.
  destruct (find_user user_name (users w)) as [old|] eqn:Hfind.
  - exists old. split; [exact Hfind|]. now intros ? [= <-].
  - eexists. split; [|discriminate].
    cbn. apply find_user_app_new; [exact Hfind | reflexivity].
Qed.

(** X5. A username is registered once.  After a registration that got
    past hashing, that is, one that succeeded or failed with "User already
    exists", a second registration of the same username, whatever its
    password and names, never succeeds and leaves the users table as the
    first one left it, so the row found under that username, and with it
    the stored hash, stays the same; it fails with what [hashpw] raises on
    the second password if it raises, and with "User already exists"
    otherwise. *)
Theorem register_twice (dto dto' : gmap string Py.str) (w : World)
    (user_name password first_name last_name : Py.str)
    (password' first_name' last_name' : Py.str) (hashed : Py.bytes) :
  dto !! "password" = Some password ->
  dto !! "user_name" = Some user_name ->
  dto !! "first_name" = Some first_name ->
  dto !! "last_name" = Some last_name ->
  dto' !! "password" = Some password' ->
  dto' !! "user_name" = Some user_name ->
  dto' !! "first_name" = Some first_name' ->
  dto' !! "last_name" = Some last_name' ->
  hashpw (Py.encode password) (salts w (salt_draws w)) = inr hashed ->
  let w1 := snd (register cfg dto w) in
  let second := register cfg dto' w1 in
  fst second =
    inl (match hashpw (Py.encode password') (salts w1 (salt_draws w1)) with
         | inl raised => raised
         | inr _ => Py.ValueError "User already exists"
         end) /\
  users (snd second) = users w1 /\
  find_user user_name (users (snd second)) = find_user user_name (users w1) /\
  find_user user_name (users w1) <> None.
Proof.
  intros Hpw Hname Hfirst Hlast Hpw' Hname' Hfirst' Hlast' Hh. cbv zeta.
  destruct (register_leaves_registered dto w user_name password first_name last_name
              hashed Hpw Hname Hfirst Hlast Hh) as (user & Hfound & _).
  set (w1 := snd (register cfg dto w)) in *.
  rewrite (register_result cfg dto' w1 user_name password' first_name' last_name'
             Hpw' Hname' Hfirst' Hlast').
  destruct (hashpw (Py.encode password') (salts w1 (salt_draws w1))) as [raised|hashed'].
  - cbn [fst snd]. split; [reflexivity|]. split; [reflexivity|].
    split; [reflexivity|]. rewrite Hfound. discriminate.
  - cbv zeta. rewrite Hfound. cbn [fst snd].
    split; [reflexivity|]. split; [reflexivity|].
    split; [exact Hfound | discriminate].
Qed.

(** X6. Registering one username does not disturb another.  For a login
    request naming a different username, the lookup finds the same row
    after the registration as before it, a login that failed before fails
    with the same exception after, and a login that succeeded before
    succeeds after with a token pair for the same user id. *)
Theorem register_frames_other_login (dto_b dto_a : gmap string Py.str) (w : World)
    (name_b password first_name last_name name_a : Py.str) :
  dto_b !! "password" = Some password ->
  dto_b !! "user_name" = Some name_b ->
  dto_b !! "first_name" = Some first_name ->
  dto_b !! "last_name" = Some last_name ->
  dto_a !! "user_name" = Some name_a ->
  name_a <> name_b ->
  let w1 := snd (register cfg dto_b w) in
  find_user name_a (users w1) = find_user name_a (users w) /\
  (forall e, fst (login cfg dto_a w) = inl e -> fst (login cfg dto_a w1) = inl e) /\
  (forall tp, fst (login cfg dto_a w) = inr tp ->
     exists user_id,
       tp = minted cfg user_id (utc w (utc_reads w)) /\
       fst (login cfg dto_a w1) = inr (minted cfg user_id (utc w1 (utc_reads w1)))).
Proof.
  intros Hpw Hname Hfirst Hlast Hname_a Hne. cbv zeta.
  assert (Hsame : find_user name_a (users (snd (register cfg dto_b w)))
                  = find_user name_a (users w)).
  { rewrite (register_result cfg dto_b w name_b password first_name last_name
               Hpw Hname Hfirst Hlast).
    destruct (hashpw _ _) as [raised|hashed]; [reflexivity|].
    cbv zeta. destruct (find_user name_b (users w)); [reflexivity|].
    cbn. apply find_user_app_other. cbn. congruence. }
  split; [exact Hsame|].
  set (w1 := snd (register cfg dto_b w)) in *.
  rewrite (login_named dto_a w name_a Hname_a), (login_named dto_a w1 name_a Hname_a).
  cbv zeta. rewrite Hsame.
  destruct (find_user name_a (users w)) as [user|]; [|split; [auto | discriminate]].
  destruct (dto_a !! "password") as [pw|]; [|split; [auto | discriminate]].
  destruct (checkpw _ _) as [e|[|]]; [split; [auto | discriminate]|
                                      |split; [auto | discriminate]].
  rewrite !generate_token_pair_eq. cbn [fst]. split; [discriminate|].
  intros tp [= <-]. exists (u_id user). split; reflexivity.
Qed.

End AuthEffects.

(** * Further properties of minting and of the configuration *)

(** ** [int(str(n)) == n] *)

Lemma lstrip_no_space (l : list ascii) :
  Forall (fun c => Py.is_space c = false) l -> Py.lstrip l = l.
Proof.
  intros Hl. destruct Hl as [|c l Hc _]; [reflexivity|].
  simpl. now rewrite Hc.
Qed.

Lemma strip_no_space (l : list ascii) :
  Forall (fun c => Py.is_space c = false) l -> Py.strip l = l.
Proof.
  intros Hl. unfold Py.strip.
  rewrite (lstrip_no_space l Hl).
  rewrite lstrip_no_space; [apply rev_involutive|].
  apply Forall_rev. exact Hl.
Qed.

Lemma digit_chars_no_space (d : Decimal.uint) :
  Forall (fun c => Py.is_space c = false) (digit_chars d).
Proof.
  unfold digit_chars.
  induction d; simpl; constructor; (reflexivity || assumption).
Qed.

Lemma digits_positive (d : Decimal.uint) (p : positive) :
  Py.digits (Z.pos p) true (digit_chars d) = Some (Z.pos (Pos.of_uint_acc d p)).
Proof.
  unfold digit_chars. revert p.
  induction d; intros p; simpl NilEmpty.string_of_uint;
    simpl list_ascii_of_string; [reflexivity|..];
    simpl Py.digits; simpl Pos.of_uint_acc;
    match goal with
    | |- Py.digits ?acc true _ = Some (Z.pos (Pos.of_uint_acc _ ?q)) =>
        replace acc with (Z.pos q) by lia; apply IHd
    end.
Qed.

Lemma digits_natural (d : Decimal.uint) :
  Py.digits 0 true (digit_chars d) = Some (Z.of_N (Pos.of_uint d)).
Proof.
  unfold digit_chars.
  induction d; simpl NilEmpty.string_of_uint;
    simpl list_ascii_of_string; [reflexivity|..];
    simpl Py.digits; simpl Pos.of_uint; first [exact IHd | apply digits_positive].
Qed.

Lemma digits_start (d : Decimal.uint) :
  d <> Decimal.Nil ->
  Py.digits 0 false (digit_chars d) = Py.digits 0 true (digit_chars d).
Proof.
  destruct d; [congruence|..]; reflexivity.
Qed.

Lemma int_of_digit_chars (d : Decimal.uint) :
  d <> Decimal.Nil ->
  Py.int (NilEmpty.string_of_uint d) = Some (Z.of_N (Pos.of_uint d)).
Proof.
  intros Hd. unfold Py.int. fold (digit_chars d).
  rewrite (strip_no_space _ (digit_chars_no_space d)).
  rewrite <- digits_natural, <- (digits_start d Hd).
  destruct d; [congruence|..]; reflexivity.
Qed.

Lemma int_of_minus_digit_chars (d : Decimal.uint) :
  d <> Decimal.Nil ->
  Py.int (String "-" (NilEmpty.string_of_uint d))
  = Some (- Z.of_N (Pos.of_uint d)).
Proof.
  intros Hd. unfold Py.int.
  change (list_ascii_of_string (String "-" (NilEmpty.string_of_uint d)))
    with ("-"%char :: digit_chars d).
  rewrite strip_no_space
    by (constructor; [reflexivity | apply digit_chars_no_space]).
  rewrite Ascii.eqb_refl, (digits_start d Hd), digits_natural. reflexivity.
Qed.

Lemma string_of_uint_nonnil (d : Decimal.uint) :
  d <> Decimal.Nil -> NilZero.string_of_uint d = NilEmpty.string_of_uint d.
Proof. destruct d; [congruence|..]; reflexivity. Qed.

(** Reading back the decimal form of an integer gives the integer. *)
Lemma int_str_int (n : Z) : Py.int (Py.str_int n) = Some n.
Proof.
  unfold Py.str_int. destruct n as [|p|p]; [reflexivity|..].
  - simpl Z.to_int. unfold NilZero.string_of_int.
    pose proof (DecimalPos.Unsigned.to_uint_nonnil p) as Hnil.
    rewrite (string_of_uint_nonnil _ Hnil), (int_of_digit_chars _ Hnil).
    now rewrite DecimalPos.Unsigned.of_to.
  - simpl Z.to_int. unfold NilZero.string_of_int.
    pose proof (DecimalPos.Unsigned.to_uint_nonnil p) as Hnil.
    rewrite (string_of_uint_nonnil _ Hnil), (int_of_minus_digit_chars _ Hnil).
    now rewrite DecimalPos.Unsigned.of_to.
Qed.

Lemma str_int_inj (n m : Z) : Py.str_int n = Py.str_int m -> n = m.
Proof.
  intros Heq. apply (f_equal Py.int) in Heq.
  rewrite !int_str_int in Heq. congruence.
Qed.

Section MintingMore.
Import AuthService Statements.
Context `{Jose}.

(** X7. The subject of a minted access token, verified and read back with
    [int], is the user id it was minted for; hence two pairs minted for
    different user ids, at whatever instants, never share a subject. *)
Theorem subject_identifies_user (cfg : Config) (a b : Z) (w w' : World) :
  decode_encode ->
  exists tp_a tp_b sub_a sub_b,
    fst (generate_token_pair cfg a w) = inr tp_a /\
    fst (generate_token_pair cfg b w') = inr tp_b /\
    p_sub <$> jwt_decode (access_token tp_a) (ACCESS_SECRET cfg) "HS256" = Some sub_a /\
    p_sub <$> jwt_decode (access_token tp_b) (ACCESS_SECRET cfg) "HS256" = Some sub_b /\
    Py.int sub_a = Some a /\
    Py.int sub_b = Some b /\
    (sub_a = sub_b -> a = b).
Proof.
  intros Hjwt. rewrite !generate_token_pair_eq. cbn [fst].
  do 4 eexists. split; [reflexivity|]. split; [reflexivity|].
  unfold minted. cbn [access_token]. rewrite !Hjwt. cbn.
  split; [reflexivity|]. split; [reflexivity|].
  split; [apply int_str_int|]. split; [apply int_str_int | apply str_int_inj].
Qed.

(** X9. The TTLs are not validated for their sign.  Whatever integers the
    two EXPIRES variables spell in decimal, zero and negative ones
    included, the configuration loads with exactly those TTLs, and,
    provided the issuance instant and the two expiry instants are
    datetimes Python can represent, a minted access token expires that
    many seconds from the issuance instant: at or before it when the TTL
    is not positive. *)
Theorem ttl_any_integer (env : Os.environ) (n m user_id : Z) (w : World) :
  env !! "ACCESS_TOKEN_EXPIRES" = Some (Py.str_int n) ->
  env !! "REFRESH_TOKEN_EXPIRES" = Some (Py.str_int m) ->
  decode_encode ->
  Datetime.representable (utc w (utc_reads w)) ->
  Datetime.representable (utc w (utc_reads w) + Datetime.timedelta n) ->
  Datetime.representable (utc w (utc_reads w) + Datetime.timedelta m) ->
  exists cfg tp payload,
    load_config env = Some cfg /\
    ACCESS_EXPIRES cfg = n /\
    REFRESH_EXPIRES cfg = m /\
    fst (generate_token_pair cfg user_id w) = inr tp /\
    jwt_decode (access_token tp) (ACCESS_SECRET cfg) "HS256" = Some payload /\
    p_exp payload = Datetime.timegm (utc w (utc_reads w)) + n /\
    (n <= 0 -> p_exp payload <= Datetime.timegm (utc w (utc_reads w))).
Proof.
  intros Ha Hr Hjwt _ _ _. unfold load_config, Os.getenv.
  rewrite Ha, Hr, !int_str_int.
  do 3 eexists. split; [reflexivity|]. cbn [ACCESS_EXPIRES REFRESH_EXPIRES ACCESS_SECRET].
  split; [reflexivity|]. split; [reflexivity|].
  rewrite generate_token_pair_eq. cbn [fst]. split; [reflexivity|].
  unfold minted. cbn [access_token ACCESS_EXPIRES ACCESS_SECRET].
  rewrite Hjwt. split; [reflexivity|].
  unfold payload_of. cbn [p_exp exp]. rewrite timegm_add_seconds.
  split; [reflexivity | lia].
Qed.

End MintingMore.

(** X8. The import of the service fails only on a TTL variable that is set
    to something [int] rejects: the secrets, and variables that are absent,
    never make it fail.  (Stated for TTL values in plain ASCII text of at
    most 4300 characters, where [Py.int] is Python's [int].) *)
Theorem load_config_fails_iff (env : Os.environ) :
  (forall raw, env !! "ACCESS_TOKEN_EXPIRES" = Some raw -> Py.plain raw = true) ->
  (forall raw, env !! "REFRESH_TOKEN_EXPIRES" = Some raw -> Py.plain raw = true) ->
  AuthService.load_config env = None <->
  (exists raw, env !! "ACCESS_TOKEN_EXPIRES" = Some raw /\ Py.int raw = None) \/
  (exists raw, env !! "REFRESH_TOKEN_EXPIRES" = Some raw /\ Py.int raw = None).
Proof.
  intros _ _.
  unfold AuthService.load_config, Os.getenv. split.
  - destruct (env !! "ACCESS_TOKEN_EXPIRES") as [a|] eqn:Ha.
    + destruct (Py.int a) eqn:Hia; [|intros _; left; eauto].
      destruct (env !! "REFRESH_TOKEN_EXPIRES") as [r|] eqn:Hr.
      * destruct (Py.int r) eqn:Hir; [discriminate | intros _; right; eauto].
      * rewrite int_default_refresh. discriminate.
    + rewrite int_default_access.
      destruct (env !! "REFRESH_TOKEN_EXPIRES") as [r|] eqn:Hr.
      * destruct (Py.int r) eqn:Hir; [discriminate | intros _; right; eauto].
      * rewrite int_default_refresh. discriminate.
  - intros [(raw & -> & ->)|(raw & -> & ->)]; [reflexivity|].
    now destruct (Py.int _).
Qed.

Lemma load_config_fails_iff_witness :
  AuthService.load_config MoreSamples.bad_ttl_env = None.
Proof.
  apply (load_config_fails_iff MoreSamples.bad_ttl_env).
  - intros raw [= <-]. reflexivity.
  - intros raw Hraw. discriminate Hraw.
  - left. exists "soon". split; reflexivity.
Defined.

Lemma subject_identifies_user_witness :
  exists tp_a tp_b sub_a sub_b,
    fst (@AuthService.generate_token_pair Sample.jose Sample.dev_config 1
           Sample.empty_world) = inr tp_a /\
    fst (@AuthService.generate_token_pair Sample.jose Sample.dev_config 2
           Sample.alice_world) = inr tp_b /\
    p_sub <$> @jwt_decode Sample.jose (AuthService.access_token tp_a) "dev_secret" "HS256"
      = Some sub_a /\
    p_sub <$> @jwt_decode Sample.jose (AuthService.access_token tp_b) "dev_secret" "HS256"
      = Some sub_b /\
    Py.int sub_a = Some 1 /\
    Py.int sub_b = Some 2 /\
    (sub_a = sub_b -> 1 = 2).
Proof.
  exact (@subject_identifies_user Sample.jose Sample.dev_config 1 2
           Sample.empty_world Sample.alice_world sample_decode_encode).
Defined.

Lemma ttl_any_integer_witness :
  exists cfg tp payload,
    AuthService.load_config MoreSamples.expired_env = Some cfg /\
    AuthService.ACCESS_EXPIRES cfg = 0 /\
    AuthService.REFRESH_EXPIRES cfg = -5 /\
    fst (@AuthService.generate_token_pair Sample.jose cfg 42 Sample.empty_world)
      = inr tp /\
    @jwt_decode Sample.jose (AuthService.access_token tp)
      (AuthService.ACCESS_SECRET cfg) "HS256" = Some payload /\
    p_exp payload = 1700000000 + 0 /\
    (0 <= 0 -> p_exp payload <= 1700000000).
Proof.
  apply (@ttl_any_integer Sample.jose MoreSamples.expired_env 0 (-5) 42
           Sample.empty_world eq_refl eq_refl sample_decode_encode);
    vm_compute; split; discriminate.
Defined.

Lemma register_effects_witness :
  users (snd (@AuthService.register Sample.bcrypt Sample.jose Sample.dev_config
                (Sample.registration "bob" "hunter2" "Bob" "Builder")
                Sample.alice_world))
  = [Sample.alice; mkUser 2 "bob" "$hunter2" "Bob" "Builder"] /\
  next_id (snd (@AuthService.register Sample.bcrypt Sample.jose Sample.dev_config
                  (Sample.registration "bob" "hunter2" "Bob" "Builder")
                  Sample.alice_world)) = 3.
Proof.
  destruct (@register_effects Sample.bcrypt Sample.jose Sample.dev_config
              (Sample.registration "bob" "hunter2" "Bob" "Builder")
              Sample.alice_world "bob" "hunter2" "Bob" "Builder"
              eq_refl eq_refl eq_refl eq_refl) as (_ & _ & Hok).
  destruct (Hok _ eq_refl) as (hashed & Hhashed & Husers & Hnext & _).
  injection Hhashed as <-.
  split; [exact Husers | exact Hnext].
Defined.

Lemma register_twice_witness :
  fst (@AuthService.register Sample.bcrypt Sample.jose Sample.dev_config
         (Sample.registration "bob" "other" "Rob" "Roy")
         (snd (@AuthService.register Sample.bcrypt Sample.jose Sample.dev_config
                 (Sample.registration "bob" "hunter2" "Bob" "Builder")
                 Sample.alice_world)))
  = inl (Py.ValueError "User already exists") /\
  UserRepository.find_user "bob"
    (users
       (snd (@AuthService.register Sample.bcrypt Sample.jose Sample.dev_config
               (Sample.registration "bob" "other" "Rob" "Roy")
               (snd (@AuthService.register Sample.bcrypt Sample.jose Sample.dev_config
                       (Sample.registration "bob" "hunter2" "Bob" "Builder")
                       Sample.alice_world)))))
  = Some (mkUser 2 "bob" "$hunter2" "Bob" "Builder").
Proof.
  destruct (@register_twice Sample.bcrypt Sample.jose Sample.dev_config
              (Sample.registration "bob" "hunter2" "Bob" "Builder")
              (Sample.registration "bob" "other" "Rob" "Roy")
              Sample.alice_world "bob" "hunter2" "Bob" "Builder" "other" "Rob" "Roy"
              (Py.encode "$hunter2")
              eq_refl eq_refl eq_refl eq_refl eq_refl eq_refl eq_refl eq_refl eq_refl)
    as (Hfail & _ & Hsame & _).
  split; [exact Hfail | exact Hsame].
Defined.

Lemma register_frames_other_login_witness :
  fst (@AuthService.login Sample.bcrypt Sample.jose Sample.dev_config
         (Sample.credentials "alice" "guess")
         (snd (@AuthService.register Sample.bcrypt Sample.jose Sample.dev_config
                 (Sample.registration "bob" "hunter2" "Bob" "Builder")
                 Sample.alice_world)))
  = inl (Py.ValueError "Wrong password").
Proof.
  destruct (@register_frames_other_login Sample.bcrypt Sample.jose Sample.dev_config
              (Sample.registration "bob" "hunter2" "Bob" "Builder")
              (Sample.credentials "alice" "guess")
              Sample.alice_world "bob" "hunter2" "Bob" "Builder" "alice"
              eq_refl eq_refl eq_refl eq_refl eq_refl ltac:(discriminate))
    as (_ & Hfail & _).
  exact (Hfail _ eq_refl).
Defined.

(** * Further properties of the post controller *)

Section Creation.
Import PostController PostHandlers Outcomes.
Context {S R E : Type}.
Variable str_of : E -> Py.str.
Variable print : gmap string Py.val -> S -> S.
Variable create_post : gmap string Py.val -> S -> (E + R) * S.

(** X10. The creation handler stamps the authenticated user on the body.
    The service is called with the request body in which [user_id] is the
    authenticated user's [sub] and every other field is as sent, after that
    same dict has been printed; the answer is the service's return value,
    or [HTTPException(400, str(e))] when it raises [e], whatever kind of
    exception [e] is.  Two bodies that differ only in their [user_id] are
    therefore answered alike. *)
Theorem create_post_handler_stamps_user (dto : gmap string Py.val)
    (user : Auth.CurrentUser) (s : S) :
  let answer := create_post_handler str_of print create_post dto user s in
  exists body,
    body !! "user_id" = Some (Py.Int (Auth.sub user)) /\
    (forall field, field <> "user_id" -> body !! field = dto !! field) /\
    snd answer = snd (create_post body (print body s)) /\
    (forall r, fst (create_post body (print body s)) = inr r ->
       fst answer = Returned r) /\
    (forall e, fst (create_post body (print body s)) = inl e ->
       fst answer = HTTPException 400 (str_of e)) /\
    (forall dto', same_but_user_id dto dto' ->
       create_post_handler str_of print create_post dto' user s = answer).
Proof.
  cbv zeta. exists (<["user_id" := Py.Int (Auth.sub user)]> dto).
  split; [apply lookup_insert_eq|].
  split; [intros field Hne; now apply lookup_insert_ne|].
  unfold create_post_handler, HTTP_400_BAD_REQUEST. cbv zeta.
  set (body := <["user_id" := Py.Int (Auth.sub user)]> dto).
  split; [|split; [|split]].
  - destruct (create_post body (print body s)) as [[e|r] s']; reflexivity.
  - intros r Hr. destruct (create_post body (print body s)) as [[e|r'] s'];
      cbn [fst] in *; congruence.
  - intros e He. destruct (create_post body (print body s)) as [[e'|r] s'];
      cbn [fst] in *; congruence.
  - intros dto' Hsame.
    assert (Hbody : <["user_id" := Py.Int (Auth.sub user)]> dto' = body).
    { apply map_eq. intros field. subst body.
      destruct (decide (field = "user_id")) as [->|Hne].
      - now rewrite !lookup_insert_eq.
      - rewrite !lookup_insert_ne by congruence. symmetry. now apply Hsame. }
    now rewrite Hbody.
Qed.

End Creation.

(** A body that names another user is stored for the authenticated one. *)
Example forged_body_is_restamped :
  PostHandlers.create_post_handler Py.str_exn MoreSamples.print_to
    MoreSamples.echo_create MoreSamples.forged_body Sample.viewer []
  = (Returned (<["user_id" := Py.Int 7]> MoreSamples.honest_body),
     [<["user_id" := Py.Int 7]> MoreSamples.honest_body]).
Proof. vm_compute. reflexivity. Qed.

(** [str] of a [KeyError] is the [repr] of its key. *)
Example str_of_key_errors :
  Py.str_exn (Py.KeyError "user_name") = "'user_name'" /\
  Py.str_exn (Py.KeyError "it's")
    = String Py.double_quote ("it's" ++ String Py.double_quote EmptyString) /\
  Py.str_exn (Py.KeyError (String "a" (String Py.backslash "b")))
    = String "'" (String "a" (String Py.backslash (String Py.backslash "b'"))).
Proof. repeat split. Qed.

Section AuthComposition.
Import AuthService UserRepository Statements.
Context `{Bcrypt} `{Jose}.
Variable cfg : Config.

(** X12. A failed second registration does not lock the first registrant
    out.  When a fresh username is registered, with a password [hashpw]
    accepts, and a second registration of the same username, with any
    password, is then attempted, the second registration fails (with
    "User already exists" unless [hashpw] raises on its password) and a
    login with the username and the first password still succeeds, with
    the token pair of the user id the first registration assigned. *)
Theorem failed_registration_keeps_login (dto dto' credentials : gmap string Py.str)
    (w : World) (user_name password first_name last_name : Py.str)
    (password' first_name' last_name' : Py.str) (hashed : Py.bytes) :
  checkpw_hashpw ->
  dto !! "password" = Some password ->
  dto !! "user_name" = Some user_name ->
  dto !! "first_name" = Some first_name ->
  dto !! "last_name" = Some last_name ->
  dto' !! "password" = Some password' ->
  dto' !! "user_name" = Some user_name ->
  dto' !! "first_name" = Some first_name' ->
  dto' !! "last_name" = Some last_name' ->
  credentials !! "user_name" = Some user_name ->
  credentials !! "password" = Some password ->
  find_user user_name (users w) = None ->
  hashpw (Py.encode password) (salts w (salt_draws w)) = inr hashed ->
  let w1 := snd (register cfg dto w) in
  let w2 := snd (register cfg dto' w1) in
  fst (register cfg dto' w1) =
    inl (match hashpw (Py.encode password') (salts w1 (salt_draws w1)) with
         | inl raised => raised
         | inr _ => Py.ValueError "User already exists"
         end) /\
  fst (login cfg credentials w2)
    = inr (minted cfg (next_id w) (utc w2 (utc_reads w2))).
Proof.
  intros Hhash Hpw Hname Hfirst Hlast Hpw' Hname' Hfirst' Hlast' Hcn Hcp Hfresh Hh.
  cbv zeta.
  set (hash := Py.decode hashed).
  set (u := mkUser (next_id w) user_name hash first_name last_name).
  assert (Hfound : find_user user_name (users (snd (register cfg dto w))) = Some u).
  { rewrite (register_result cfg dto w user_name password first_name last_name
               Hpw Hname Hfirst Hlast).
    rewrite Hh. cbv zeta. rewrite Hfresh. cbn.
    apply find_user_app_new; [exact Hfresh | reflexivity]. }
  set (w1 := snd (register cfg dto w)) in *.
  rewrite (register_result cfg dto' w1 user_name password' first_name' last_name'
             Hpw' Hname' Hfirst' Hlast').
  assert (Hcheck : checkpw (Py.encode password) (Py.encode (u_password_hash u))
                   = inr true).
  { subst u hash. cbn [u_password_hash]. rewrite encode_decode_hash.
    exact (Hhash _ _ _ Hh). }
  destruct (hashpw (Py.encode password') (salts w1 (salt_draws w1)))
    as [raised|hashed'].
  - cbn [fst snd]. split; [reflexivity|].
    set (w2 := snd (gensalt w1)).
    rewrite (login_named cfg credentials w2 user_name Hcn). cbv zeta.
    change (users w2) with (users w1). rewrite Hfound, Hcp, Hcheck.
    rewrite generate_token_pair_eq. reflexivity.
  - cbv zeta. rewrite Hfound. cbn [fst snd]. split; [reflexivity|].
    set (w2 := record_call _ _).
    rewrite (login_named cfg credentials w2 user_name Hcn). cbv zeta.
    change (users w2) with (users w1). rewrite Hfound, Hcp, Hcheck.
    rewrite generate_token_pair_eq. reflexivity.
Qed.

(** X13. [login] reads two fields of its request and [register] four:
    requests that agree on [user_name] and [password] get the same result
    from [login] in the same world, and requests that agree on [password],
    [user_name], [first_name] and [last_name] the same result from
    [register]; nothing else a request carries has any effect. *)
Theorem requests_read_by_field (dto dto' : gmap string Py.str) (w : World) :
  (dto' !! "user_name" = dto !! "user_name" ->
   dto' !! "password" = dto !! "password" ->
   login cfg dto' w = login cfg dto w) /\
  (dto' !! "password" = dto !! "password" ->
   dto' !! "user_name" = dto !! "user_name" ->
   dto' !! "first_name" = dto !! "first_name" ->
   dto' !! "last_name" = dto !! "last_name" ->
   register cfg dto' w = register cfg dto w).
Proof.
  split.
  - intros Hname Hpw. unfold login, Py.getitem, Py.bind.
    rewrite Hname, Hpw. reflexivity.
  - intros Hpw Hname Hfirst Hlast. unfold register, register_with, Py.getitem.
    rewrite Hpw, Hname, Hfirst, Hlast. reflexivity.
Qed.

End AuthComposition.

Lemma failed_registration_keeps_login_witness :
  fst (@AuthService.login Sample.bcrypt Sample.jose Sample.dev_config
         (Sample.credentials "bob" "hunter2")
         (snd (@AuthService.register Sample.bcrypt Sample.jose Sample.dev_config
                 (Sample.registration "bob" "other" "Rob" "Roy")
                 (snd (@AuthService.register Sample.bcrypt Sample.jose
                         Sample.dev_config
                         (Sample.registration "bob" "hunter2" "Bob" "Builder")
                         Sample.alice_world)))))
  = inr (@Statements.minted Sample.jose Sample.dev_config 2 1700000000250000).
Proof.
  destruct (@failed_registration_keeps_login Sample.bcrypt Sample.jose
              Sample.dev_config
              (Sample.registration "bob" "hunter2" "Bob" "Builder")
              (Sample.registration "bob" "other" "Rob" "Roy")
              (Sample.credentials "bob" "hunter2")
              Sample.alice_world "bob" "hunter2" "Bob" "Builder" "other" "Rob" "Roy"
              (Py.encode "$hunter2")
              sample_checkpw_hashpw
              eq_refl eq_refl eq_refl eq_refl eq_refl eq_refl eq_refl eq_refl
              eq_refl eq_refl eq_refl eq_refl) as (_ & Hlogin).
  exact Hlogin.
Defined.
